(** * rapids_triton: the Buffer abstraction and buffer-to-buffer copies

    A shallow embedding of [cpp/include/rapids_triton/memory/buffer.hpp].
    C++ objects live in a store and are named by references, raw pointers
    are addresses into a heap split by placement, and every function that
    can throw or touch the CUDA runtime is a computation in a state and
    exception monad over that world. *)

From stdpp Require Import base gmap list strings.
From Stdlib Require Import ZArith Lia.

Open Scope Z_scope.

(** ** Placement, handles and errors *)

(** Modelled from the spec: [memory/types.hpp] is not among the sources;
    section 4.1 gives [MemoryType] the two values Host and Device. *)
Inductive MemoryType : Set := HostMemory | DeviceMemory.

#[global] Instance MemoryType_eq_dec : EqDecision MemoryType.
Proof. solve_decision. Defined.

#[global] Instance MemoryType_countable : Countable MemoryType.
Proof.
  refine (inj_countable'
            (λ m, match m with HostMemory => false | DeviceMemory => true end)
            (λ b : bool, if b then DeviceMemory else HostMemory) _).
  by intros [].
Defined.

(** [device_id_t], [cudaStream_t] and [cudaError_t] are opaque handles of
    the runtime; raw pointers [T*] are addresses counted in elements. *)
Abbreviation device_id_t := Z (only parsing).
Abbreviation cudaStream_t := Z (only parsing).
Abbreviation cudaError_t := Z (only parsing).
Abbreviation ptr := Z (only parsing).
Abbreviation ref := N (only parsing).

Definition cudaSuccess : cudaError_t := 0.
Definition nullptr : ptr := 0.

(** [size_type] is [std::size_t]: an unsigned 64-bit integer, kept as a [Z]
    in [0, 2^64) with the wrap-around of its arithmetic written out. *)
Abbreviation size_type := Z (only parsing).
Definition size_bits : Z := 64.
Definition to_size_type (z : Z) : size_type := z mod 2 ^ size_bits.

(** Modelled from the spec: [exceptions.hpp] is not among the sources;
    section 7 names the error classes Unsupported and Internal. *)
Inductive Error : Set := Internal | Unsupported.

(** What a call can throw: a [TritonException], or the [std::bad_alloc] of
    a failed [new]. *)
Inductive exn : Set :=
| TritonException (code : Error) (msg : string)
| bad_alloc.

(** ** The ownership variant *)

(** [std::variant<h_ptr, d_ptr, owned_h_ptr, owned_d_ptr>]; an owning
    alternative holds the pointer its [unique_ptr] manages. *)
Inductive data_ptr : Set :=
| h_ptr (p : ptr)
| d_ptr (p : ptr)
| owned_h_ptr (p : ptr)
| owned_d_ptr (p : ptr).

(** [std::variant::index] *)
Definition index (v : data_ptr) : Z :=
  match v with
  | h_ptr _ => 0
  | d_ptr _ => 1
  | owned_h_ptr _ => 2
  | owned_d_ptr _ => 3
  end.

(** [std::move] of a variant: the target receives the active alternative;
    a raw pointer stays in the source, a [unique_ptr] is left null. *)
Definition moved_from (v : data_ptr) : data_ptr :=
  match v with
  | h_ptr p => h_ptr p
  | d_ptr p => d_ptr p
  | owned_h_ptr _ => owned_h_ptr nullptr
  | owned_d_ptr _ => owned_d_ptr nullptr
  end.

(** The data members of [Buffer<T>], in declaration order. *)
Record Buffer : Set := mkBuffer {
  device_ : device_id_t;
  data_ : data_ptr;
  size_ : size_type;
  stream_ : cudaStream_t
}.

(** [Buffer() noexcept] *)
Definition Buffer_default : Buffer :=
  {| device_ := 0; data_ := h_ptr nullptr; size_ := 0; stream_ := 0 |}.

#[global] Instance Buffer_inhabited : Inhabited Buffer := populate Buffer_default.

(** ** Calls into the runtime *)

(** The requests the buffer code makes to CUDA and to the host allocator.
    The world keeps them in order of issue. *)
Inductive call : Set :=
| StreamSynchronize (s : cudaStream_t)
| SetDevice (d : device_id_t)
| DevMalloc (n : size_type)
| HostNew (n : size_type)
| RawCopy (dst src : ptr) (len : size_type) (stream : option cudaStream_t)
          (dst_type src_type : MemoryType).

(** The build and the runtime the code runs against.
    - [IS_GPU_BUILD] comes from [build_control.hpp], which is not among the
      sources.
    - [status] is the runtime's answer to a call, given the calls made so far.
    - [raw_is_device] stands for the alternative that [data_{input_data}]
      activates in the borrowing constructor: [h_ptr] and [d_ptr] are both
      [T*], so the source does not say which of index 0 and index 1 it is. *)
Record Env : Type := mkEnv {
  IS_GPU_BUILD : bool;
  status : list call → call → cudaError_t;
  cudaGetErrorString : cudaError_t → string;
  raw_is_device : bool
}.

Section World.
Context {T : Type}.

(** Host and device memory are one heap keyed by placement and address; a
    cell without a value is indeterminate. [host_brk] and [dev_brk] bound
    the addresses handed out so far. *)
Record world : Type := mkWorld {
  heap : gmap (MemoryType * Z) T;
  host_brk : Z;
  dev_brk : Z;
  cuda_device : device_id_t;
  objs : gmap N Buffer;
  log : list call
}.

Inductive outcome (A : Type) : Type :=
| Ret (a : A) (w : world)
| Throw (e : exn) (w : world).

Definition M (A : Type) : Type := world → outcome A.

Definition ret {A} (a : A) : M A := λ w, Ret A a w.
Definition throw {A} (e : exn) : M A := λ w, Throw A e w.
Definition bind {A B} (m : M A) (k : A → M B) : M B :=
  λ w, match m w with
       | Ret _ a w' => k a w'
       | Throw _ e w' => Throw B e w'
       end.

Definition final {A} (o : outcome A) : world :=
  match o with Ret _ _ w => w | Throw _ _ w => w end.

Definition with_heap (f : gmap (MemoryType * Z) T → gmap (MemoryType * Z) T)
    (w : world) : world :=
  {| heap := f (heap w); host_brk := host_brk w; dev_brk := dev_brk w;
     cuda_device := cuda_device w; objs := objs w; log := log w |}.

Definition with_objs (f : gmap N Buffer → gmap N Buffer) (w : world) : world :=
  {| heap := heap w; host_brk := host_brk w; dev_brk := dev_brk w;
     cuda_device := cuda_device w; objs := f (objs w); log := log w |}.

Definition with_log (c : call) (w : world) : world :=
  {| heap := heap w; host_brk := host_brk w; dev_brk := dev_brk w;
     cuda_device := cuda_device w; objs := objs w; log := log w ++ [c] |}.

Definition with_device (d : device_id_t) (w : world) : world :=
  {| heap := heap w; host_brk := host_brk w; dev_brk := dev_brk w;
     cuda_device := d; objs := objs w; log := log w |}.

Definition brk (t : MemoryType) (w : world) : Z :=
  match t with HostMemory => host_brk w | DeviceMemory => dev_brk w end.

Definition with_brk (t : MemoryType) (b : Z) (w : world) : world :=
  match t with
  | HostMemory =>
      {| heap := heap w; host_brk := b; dev_brk := dev_brk w;
         cuda_device := cuda_device w; objs := objs w; log := log w |}
  | DeviceMemory =>
      {| heap := heap w; host_brk := host_brk w; dev_brk := b;
         cuda_device := cuda_device w; objs := objs w; log := log w |}
  end.

(** Reading and writing one cell; writing an indeterminate value leaves
    the cell indeterminate. *)
Definition load (t : MemoryType) (p : ptr) (w : world) : option T :=
  heap w !! (t, p).

Definition store (t : MemoryType) (p : ptr) (v : option T) (w : world) : world :=
  with_heap (partial_alter (λ _, v) (t, p)) w.
End World.

Arguments world : clear implicits.
Arguments outcome : clear implicits.
Arguments M : clear implicits.
Arguments Ret {T A} a w.
Arguments Throw {T A} e w.

#[global] Instance M_ret {T} : MRet (M T) := @ret T.
#[global] Instance M_bind {T} : MBind (M T) := λ A B k m, bind m k.

(** ** Accessors of [Buffer] *)

(** [get_raw_ptr]: the switch over the active alternative. *)
Definition get_raw_ptr (v : data_ptr) : ptr :=
  match v with
  | h_ptr p => p
  | d_ptr p => p
  | owned_h_ptr p => p
  | owned_d_ptr p => p
  end.

(** The test [index() % 2 == 0 ? HostMemory : DeviceMemory], which
    [mem_type()] and the private copy helper both make. *)
Definition placement_of (v : data_ptr) : MemoryType :=
  if decide (index v mod 2 = 0) then HostMemory else DeviceMemory.

Definition mem_type (b : Buffer) : MemoryType := placement_of (data_ b).
Definition size (b : Buffer) : size_type := size_ b.
Definition data (b : Buffer) : ptr := get_raw_ptr (data_ b).
Definition device (b : Buffer) : device_id_t := device_ b.
Definition stream (b : Buffer) : cudaStream_t := stream_ b.

Definition with_stream (s : cudaStream_t) (b : Buffer) : Buffer :=
  {| device_ := device_ b; data_ := data_ b; size_ := size_ b; stream_ := s |}.

Definition with_data (v : data_ptr) (b : Buffer) : Buffer :=
  {| device_ := device_ b; data_ := v; size_ := size_ b; stream_ := stream_ b |}.

(** The elements a buffer spans, read from the heap of its placement. *)
Definition cells {T} (w : world T) (t : MemoryType) (p : ptr) (n : size_type)
    : list (option T) :=
  (λ i, load t (p + i) w) <$> seqZ 0 n.

Definition contents {T} (w : world T) (b : Buffer) : list (option T) :=
  cells w (mem_type b) (data b) (size b).

Section Model.
Context {T : Type} `{!Inhabited T}.
Variable env : Env.

Local Abbreviation M := (M T).

Definition modify (f : world T → world T) : M unit := λ w, Ret () (f w).

(** *** Objects behind references *)

Definition read {A} (r : ref) (f : Buffer → A) : M A :=
  λ w, Ret (f (objs w !!! r)) w.

Definition write (r : ref) (f : Buffer → Buffer) : M unit :=
  modify (with_objs (λ o, <[r := f (o !!! r)]> o)).

(** *** The runtime *)

Definition issue (c : call) : M cudaError_t :=
  λ w, Ret (status env (log w) c) (with_log c w).

Definition cudaStreamSynchronize (s : cudaStream_t) : M cudaError_t :=
  issue (StreamSynchronize s).

Definition cudaSetDevice (d : device_id_t) : M cudaError_t :=
  err ← issue (SetDevice d);
  (if decide (err = cudaSuccess) then modify (with_device d) else mret ());;
  mret err.

(** Modelled from the spec: [cuda_check] is declared in [exceptions.hpp],
    which is not among the sources; section 7 classes a failure of the
    device runtime as Internal. *)
Definition cuda_check (err : cudaError_t) : M unit :=
  if decide (err = cudaSuccess) then mret ()
  else throw (TritonException Internal (cudaGetErrorString env err)).

(** Modelled from the spec: neither allocator is among the sources; by
    section 4.2 each acquires raw memory in its placement. The model hands
    out the [n] elements at the break of the placement, which no earlier
    block overlaps; an empty block still has an address of its own. *)
Definition fresh (t : MemoryType) (n : size_type) : M ptr :=
  λ w, Ret (brk t w) (with_brk t (brk t w + Z.max 1 n) w).

Fixpoint fill (n : nat) (t : MemoryType) (p : ptr) (v : T) (w : world T)
    : world T :=
  match n with
  | O => w
  | S k => fill k t (p + 1) v (store t p (Some v) w)
  end.

(** [std::make_unique<T[]>(n)]: a new host array, its elements value
    initialised; [std::bad_alloc] when the allocator refuses. *)
Definition make_unique (n : size_type) : M ptr :=
  err ← issue (HostNew n);
  if decide (err = cudaSuccess) then
    p ← fresh HostMemory n;
    modify (fill (Z.to_nat n) HostMemory p inhabitant);;
    mret p
  else throw bad_alloc.

(** Modelled from the spec: [detail::dev_allocate] is declared in
    [memory/detail/allocate.hpp], which is not among the sources; section
    4.2 has it allocate device memory for [n] elements, contents
    indeterminate, and section 7 classes its failure as Internal. *)
Definition dev_allocate (n : size_type) : M ptr :=
  err ← issue (DevMalloc n);
  cuda_check err;;
  fresh DeviceMemory n.

Fixpoint copy_elements (n : nat) (dt st : MemoryType) (d s : ptr)
    (w : world T) : world T :=
  match n with
  | O => w
  | S k => copy_elements k dt st (d + 1) (s + 1) (store dt d (load st s w) w)
  end.

Fixpoint clobber (n : nat) (t : MemoryType) (p : ptr) (w : world T) : world T :=
  match n with
  | O => w
  | S k => clobber k t (p + 1) (store t p None w)
  end.

(** Modelled from the spec: [detail::copy] is declared in
    [memory/detail/copy.hpp], which is not among the sources. Section 4.3:
    it moves [len] elements from [src] to [dst], element by element,
    between the two placements; a copy of zero elements is a no-op that
    always succeeds; a failure of the underlying copy is an Internal error
    that leaves the destination indeterminate. The private helper of
    [Buffer] calls it without a stream, the free function with one. *)
Definition detail_copy (dst src : ptr) (len : size_type)
    (stream : option cudaStream_t) (dst_type src_type : MemoryType) : M unit :=
  if decide (len = 0) then mret ()
  else
    err ← issue (RawCopy dst src len stream dst_type src_type);
    if decide (err = cudaSuccess) then
      modify (copy_elements (Z.to_nat len) dst_type src_type dst src)
    else
      modify (clobber (Z.to_nat len) dst_type dst);;
      throw (TritonException Internal (cudaGetErrorString env err)).

(** *** Members of [Buffer] *)

(** [set_stream] *)
Definition set_stream (this : ref) (new_stream : cudaStream_t) : M unit :=
  (if IS_GPU_BUILD env then
     s ← read this stream_;
     err ← cudaStreamSynchronize s;
     cuda_check err
   else mret ());;
  write this (with_stream new_stream).

(** [allocate]; the [device_] it selects is the member of the buffer under
    construction, which every constructor initialises first. *)
Definition allocate (device_ : device_id_t) (size : size_type)
    (memory_type : MemoryType) : M data_ptr :=
  if decide (memory_type = DeviceMemory) then
    if IS_GPU_BUILD env then
      err ← cudaSetDevice device_;
      cuda_check err;;
      p ← dev_allocate size;
      mret (owned_d_ptr p)
    else
      throw (TritonException Internal
               "DeviceMemory requested in CPU-only build of FIL backend")
  else
    p ← make_unique size;
    mret (owned_h_ptr p).

(** The private static [copy] of the constructors. *)
Definition Buffer_copy (dst src : data_ptr) (len : size_type)
    (stream : cudaStream_t) : M unit :=
  let raw_dst := get_raw_ptr dst in
  let raw_src := get_raw_ptr src in
  let dst_mem_type := placement_of dst in
  let src_mem_type := placement_of src in
  detail_copy raw_dst raw_src len None dst_mem_type src_mem_type.

(** [Buffer(size, memory_type, device, stream)] *)
Definition Buffer_sized (size : size_type) (memory_type : MemoryType)
    (device : device_id_t) (stream : cudaStream_t) : M Buffer :=
  d ← allocate device size memory_type;
  mret {| device_ := device; data_ := d; size_ := size; stream_ := stream |}.

(** [Buffer(input_data, size, memory_type, device, stream)]: the
    initialiser of [data_] is [input_data] alone. *)
Definition Buffer_borrowed (input_data : ptr) (size : size_type)
    (memory_type : MemoryType) (device : device_id_t) (stream : cudaStream_t)
    : Buffer :=
  {| device_ := device;
     data_ := if raw_is_device env then d_ptr input_data else h_ptr input_data;
     size_ := size;
     stream_ := stream |}.

(** [Buffer(other, memory_type, device)] *)
Definition Buffer_copy_to (other : ref) (memory_type : MemoryType)
    (device : device_id_t) : M Buffer :=
  n ← read other size_;
  result ← allocate device n memory_type;
  src ← read other data_;
  len ← read other size_;
  s ← read other stream_;
  Buffer_copy result src len s;;
  n' ← read other size_;
  s' ← read other stream_;
  mret {| device_ := device; data_ := result; size_ := n'; stream_ := s' |}.

(** [Buffer(other)]. The source delegates with a fourth argument,
    [other.stream()], to a constructor that takes three; the stream of the
    three-argument constructor is [other.stream_] in any case. *)
Definition Buffer_copy_ctor (other : ref) : M Buffer :=
  t ← read other mem_type;
  d ← read other device;
  Buffer_copy_to other t d.

(** [Buffer(std::move(other), memory_type)] *)
Definition Buffer_move_to (other : ref) (memory_type : MemoryType) : M Buffer :=
  d ← read other device;
  t ← read other mem_type;
  result ←
    (if decide (memory_type = t) then
       v ← read other data_;
       write other (with_data (moved_from v));;
       mret v
     else
       n ← read other size_;
       r ← allocate d n memory_type;
       src ← read other data_;
       len ← read other size_;
       s ← read other stream_;
       Buffer_copy r src len s;;
       mret r);
  n' ← read other size_;
  s' ← read other stream_;
  mret {| device_ := d; data_ := result; size_ := n'; stream_ := s' |}.

(** [Buffer(std::move(other))] *)
Definition Buffer_move_ctor (other : ref) : M Buffer :=
  d ← read other device_;
  v ← read other data_;
  write other (with_data (moved_from v));;
  n ← read other size_;
  s ← read other stream_;
  mret {| device_ := d; data_ := v; size_ := n; stream_ := s |}.

(** *** Copies between buffers *)

(** [copy(dst, src, dst_begin, src_begin, src_end)]. The two pointer sums
    are exact: they are those of the program as long as the offsets stay
    within storage, and a sum that leaves the address space is undefined
    in the program. Statements about the cells that are written therefore
    keep their offsets within a buffer. *)
Definition copy (dst src : ref) (dst_begin src_begin src_end : size_type)
    : M unit :=
  ds ← read dst stream;
  ss ← read src stream;
  (if decide (ds ≠ ss) then
     s ← read src stream;
     set_stream dst s
   else mret ());;
  let len := to_size_type (src_end - src_begin) in
  src_size ← read src size;
  dst_size ← read dst size;
  if (len <? 0) || (src_size <? src_end)
     || (to_size_type (dst_size - dst_begin) <? len) then
    throw (TritonException Internal "bad copy between buffers")
  else
    dst_data ← read dst data;
    let raw_dst := dst_data + dst_begin in
    src_data ← read src data;
    let raw_src := src_data + src_begin in
    dst_stream ← read dst stream;
    dst_type ← read dst mem_type;
    src_type ← read src mem_type;
    detail_copy raw_dst raw_src len (Some dst_stream) dst_type src_type.

(** Modelled from the spec: the overloads call [begin()] on a buffer, and
    [Buffer] declares no such member; section 4.5 has them start at
    offset 0. *)
Definition begin (r : ref) : M size_type := mret 0.

(** [copy(dst, src)] *)
Definition copy_all (dst src : ref) : M unit :=
  db ← begin dst;
  sb ← begin src;
  sb' ← begin src;
  n ← read src size;
  copy dst src db sb (to_size_type (sb' + n)).

(** [copy(dst, src, dst_begin)] *)
Definition copy_at (dst src : ref) (dst_begin : size_type) : M unit :=
  sb ← begin src;
  sb' ← begin src;
  n ← read src size;
  copy dst src dst_begin sb (to_size_type (sb' + n)).

(** [copy(dst, src, src_begin, src_end)]. Its body names [dst_begin],
    which is not one of its parameters: [free_dst_begin] is whatever that
    name denotes. The parameter [src_begin] is not used. *)
Definition copy_range (free_dst_begin : size_type) (dst src : ref)
    (src_begin src_end : size_type) : M unit :=
  sb ← begin src;
  sb' ← begin src;
  copy dst src free_dst_begin sb (to_size_type (sb' + src_end)).
End Model.

(** ** Vocabulary of the statements *)

(** Every call the runtime is asked for succeeds. *)
Definition runtime_ok (env : Env) : Prop :=
  ∀ l c, status env l c = cudaSuccess.

(** A value that fits [size_type]. *)
Definition in_size_type (z : Z) : Prop := 0 ≤ z < 2 ^ size_bits.

(** The cell [(t', q)] is not among the [n] cells of placement [t] that
    start at [p]. *)
Definition outside (t : MemoryType) (p : ptr) (n : nat) (t' : MemoryType)
    (q : ptr) : Prop :=
  t ≠ t' ∨ q < p ∨ p + Z.of_nat n ≤ q.

(** Two worlds that differ in their heaps at most. *)
Definition same_frame {T} (w w' : world T) : Prop :=
  host_brk w' = host_brk w ∧ dev_brk w' = dev_brk w
  ∧ cuda_device w' = cuda_device w ∧ objs w' = objs w ∧ log w' = log w.

(** The owning alternative of a placement. *)
Definition owned (t : MemoryType) (p : ptr) : data_ptr :=
  match t with HostMemory => owned_h_ptr p | DeviceMemory => owned_d_ptr p end.

(** The first statements of the five-argument [copy], which put [dst] on
    the stream of [src]; the validated transfer follows them. *)
Definition reconcile {T} (env : Env) (dst src : ref) : M T unit :=
  ds ← read dst stream;
  ss ← read src stream;
  if decide (ds ≠ ss) then
    s ← read src stream;
    set_stream env dst s
  else mret ().

(** The world once [dst] has taken stream [s]. *)
Definition adopted {T} (dst : ref) (s : cudaStream_t) (w : world T) : world T :=
  with_objs (λ o, <[dst := with_stream s (o !!! dst)]> o) w.

(** ** Runs used in the examples *)

(** A runtime whose calls all succeed. *)
Definition ok_runtime (gpu alt : bool) : Env :=
  {| IS_GPU_BUILD := gpu;
     status := λ _ _, cudaSuccess;
     cudaGetErrorString := λ _, "cuda failure"%string;
     raw_is_device := alt |}.

(** A runtime that refuses to synchronise a stream (error 700). *)
Definition stuck_runtime : Env :=
  {| IS_GPU_BUILD := true;
     status := λ _ c, match c with StreamSynchronize _ => 700 | _ => cudaSuccess end;
     cudaGetErrorString := λ _, "cuda failure"%string;
     raw_is_device := false |}.

(** Two borrowing host buffers over the same two integers at address 10,
    on streams 5 and 6. *)
Definition shared_world : world Z :=
  {| heap := {[ (HostMemory, 10) := 1; (HostMemory, 11) := 2 ]};
     host_brk := 20;
     dev_brk := 1;
     cuda_device := 0;
     objs := {[ 1%N := mkBuffer 0 (h_ptr 10) 2 5;
                2%N := mkBuffer 0 (h_ptr 10) 2 6 ]};
     log := [] |}.

(** A destination of two integers at address 30 and a source of two
    integers at address 10, both on the host and on stream 5. *)
Definition apart_world : world Z :=
  {| heap := {[ (HostMemory, 10) := 1; (HostMemory, 11) := 2;
                (HostMemory, 30) := 7; (HostMemory, 31) := 8 ]};
     host_brk := 40;
     dev_brk := 1;
     cuda_device := 0;
     objs := {[ 1%N := mkBuffer 0 (owned_h_ptr 30) 2 5;
                2%N := mkBuffer 0 (h_ptr 10) 2 5 ]};
     log := [] |}.

(** A GPU runtime that is out of memory on the host and on the device
    (error 2). *)
Definition starved_runtime : Env :=
  {| IS_GPU_BUILD := true;
     status := λ _ c, match c with
                      | HostNew _ => 2
                      | DevMalloc _ => 2
                      | _ => cudaSuccess
                      end;
     cudaGetErrorString := λ _, "out of memory"%string;
     raw_is_device := false |}.

(** ** Destruction *)

(** [~Buffer() = default] destroys [data_], hence its active alternative:
    a raw pointer is dropped, a [unique_ptr] passes the pointer it manages
    to its deleter unless that pointer is null. The block the destructor
    releases, if any. *)
Definition Buffer_dtor_releases (b : Buffer) : option (MemoryType * ptr) :=
  match data_ b with
  | h_ptr _ => None
  | d_ptr _ => None
  | owned_h_ptr p => if decide (p = nullptr) then None else Some (HostMemory, p)
  | owned_d_ptr p => if decide (p = nullptr) then None else Some (DeviceMemory, p)
  end.

(** Every buffer of [w'] has the placement, size and device it has in [w]. *)
Definition same_shape {T} (w w' : world T) : Prop :=
  ∀ r : ref,
    mem_type (objs w' !!! r) = mem_type (objs w !!! r)
    ∧ size (objs w' !!! r) = size (objs w !!! r)
    ∧ device (objs w' !!! r) = device (objs w !!! r).

(** A host source of two integers at address 10 on stream 5, a device
    buffer of two elements at device address 4 on stream 6, and a host
    destination of two integers at address 30 on stream 7. *)
Definition relay_world : world Z :=
  {| heap := {[ (HostMemory, 10) := 1; (HostMemory, 11) := 2;
                (HostMemory, 30) := 7; (HostMemory, 31) := 8 ]};
     host_brk := 40;
     dev_brk := 8;
     cuda_device := 0;
     objs := {[ 1%N := mkBuffer 0 (h_ptr 10) 2 5;
                2%N := mkBuffer 0 (owned_d_ptr 4) 2 6;
                3%N := mkBuffer 0 (owned_h_ptr 30) 2 7 ]};
     log := [] |}.

(** A host array of four integers at address 10, seen whole by buffer 3
    and, its first two elements only, by buffer 1; a source of two
    integers at address 30. All are on stream 5. *)
Definition view_world : world Z :=
  {| heap := {[ (HostMemory, 10) := 1; (HostMemory, 11) := 2;
                (HostMemory, 12) := 3; (HostMemory, 13) := 4;
                (HostMemory, 30) := 7; (HostMemory, 31) := 8 ]};
     host_brk := 40;
     dev_brk := 1;
     cuda_device := 0;
     objs := {[ 1%N := mkBuffer 0 (h_ptr 10) 2 5;
                2%N := mkBuffer 0 (owned_h_ptr 30) 2 5;
                3%N := mkBuffer 0 (h_ptr 10) 4 5 ]};
     log := [] |}.

(** ** Proof support *)

Ltac run :=
  repeat (progress
    (cbv beta iota delta
       [mbind mret M_bind M_ret bind ret throw modify read write issue
        cudaStreamSynchronize cudaSetDevice cuda_check fresh begin final] in *;
     simpl in *)).

Ltac case_status :=
  match goal with
  | |- context [decide (status ?e ?l ?c = cudaSuccess)] =>
      destruct (decide (status e l c = cudaSuccess))
  end.

Section Facts.
Context {T : Type} `{!Inhabited T}.
Implicit Types (env : Env) (w : world T) (b : Buffer) (t : MemoryType).

Lemma Buffer_eta b :
  {| device_ := device_ b; data_ := data_ b; size_ := size_ b;
     stream_ := stream_ b |} = b.
Proof. by destruct b. Qed.

Lemma with_stream_same b : with_stream (stream b) b = b.
Proof. by destruct b. Qed.

Lemma with_stream_fields s b :
  device (with_stream s b) = device b ∧ data_ (with_stream s b) = data_ b
  ∧ size (with_stream s b) = size b ∧ stream (with_stream s b) = s.
Proof. by destruct b. Qed.

Lemma placement_of_cases v :
  placement_of v =
    match v with
    | h_ptr _ | owned_h_ptr _ => HostMemory
    | d_ptr _ | owned_d_ptr _ => DeviceMemory
    end.
Proof. by destruct v. Qed.

Lemma to_size_type_range z : 0 ≤ to_size_type z < 2 ^ size_bits.
Proof. unfold to_size_type, size_bits. apply Z.mod_pos_bound. lia. Qed.

Lemma to_size_type_small z : 0 ≤ z < 2 ^ size_bits → to_size_type z = z.
Proof. unfold to_size_type. intros. by apply Z.mod_small. Qed.

(** *** What [allocate] returns *)

Lemma allocate_placement env d n t w v w' :
  allocate env d n t w = Ret v w' → placement_of v = t.
Proof.
  unfold allocate, make_unique, dev_allocate. run.
  destruct (decide (t = DeviceMemory)) as [-> | Ht].
  - destruct (IS_GPU_BUILD env); [|done].
    repeat (case_status; run; try done).
    by intros [= <- _].
  - case_status; run; [|done].
    intros [= <- _]. by destruct t.
Qed.

Lemma allocate_cpu_only env d n w :
  IS_GPU_BUILD env = false →
  allocate env d n DeviceMemory w =
    Throw (TritonException Internal
             "DeviceMemory requested in CPU-only build of FIL backend") w.
Proof. unfold allocate. intros ->. by run. Qed.

Lemma allocate_ok env d n t w :
  runtime_ok env → t = HostMemory ∨ IS_GPU_BUILD env = true →
  ∃ v w', allocate (T:=T) env d n t w = Ret v w'.
Proof.
  intros Hok Hb. unfold allocate, make_unique, dev_allocate. run.
  destruct (decide (t = DeviceMemory)) as [-> | Ht].
  - destruct Hb as [| ->]; [done|].
    rewrite !Hok. run. rewrite !Hok. run. eauto.
  - rewrite !Hok. run. eauto.
Qed.
End Facts.

Section Heap.
Context {T : Type}.
Implicit Types (w : world T) (t : MemoryType) (p q : ptr) (n : nat).

Lemma load_store t p v w t' q :
  load t' q (store t p v w) = if decide ((t, p) = (t', q)) then v else load t' q w.
Proof.
  unfold load, store. simpl. destruct (decide ((t, p) = (t', q))) as [<- | Hne].
  - by rewrite lookup_partial_alter_eq.
  - by rewrite lookup_partial_alter_ne.
Qed.

Lemma load_store_other t p v w t' q :
  t ≠ t' ∨ p ≠ q → load t' q (store t p v w) = load t' q w.
Proof.
  intros Hne. rewrite load_store. destruct (decide _) as [[= -> ->] | ]; [|done].
  by destruct Hne.
Qed.

Lemma outside_step t p n t' q :
  outside t p (S n) t' q → (t ≠ t' ∨ p ≠ q) ∧ outside t (p + 1) n t' q.
Proof. unfold outside. intros [?|?]; split; auto; lia. Qed.

Lemma copy_elements_frame n dt st d s w t q :
  outside dt d n t q → load t q (copy_elements n dt st d s w) = load t q w.
Proof.
  revert d s w. induction n as [|n IH]; intros d s w Hout; [done|].
  apply outside_step in Hout as [Hne Hout]. simpl.
  rewrite IH by done. by apply load_store_other.
Qed.

Lemma fill_frame n dt d v w t q :
  outside dt d n t q → load t q (fill n dt d v w) = load t q w.
Proof.
  revert d w. induction n as [|n IH]; intros d w Hout; [done|].
  apply outside_step in Hout as [Hne Hout]. simpl.
  rewrite IH by done. by apply load_store_other.
Qed.

Lemma clobber_frame n dt d w t q :
  outside dt d n t q → load t q (clobber n dt d w) = load t q w.
Proof.
  revert d w. induction n as [|n IH]; intros d w Hout; [done|].
  apply outside_step in Hout as [Hne Hout]. simpl.
  rewrite IH by done. by apply load_store_other.
Qed.

(** When no source cell lies in the destination span, every destination
    cell ends up with the value its source cell had. *)
Lemma copy_elements_result n dt st d s w i :
  (∀ j, 0 ≤ j < Z.of_nat n → outside dt d n st (s + j)) →
  0 ≤ i < Z.of_nat n →
  load dt (d + i) (copy_elements n dt st d s w) = load st (s + i) w.
Proof.
  revert d s w i. induction n as [|n IH]; intros d s w i Hsep Hi; [lia|].
  simpl. destruct (decide (i = 0)) as [-> | Hi0].
  - rewrite !Z.add_0_r, copy_elements_frame by (right; lia).
    rewrite load_store. by destruct (decide _).
  - replace (d + i) with (d + 1 + (i - 1)) by lia.
    rewrite IH; [| |lia].
    + replace (s + 1 + (i - 1)) with (s + i) by lia.
      apply load_store_other.
      destruct (Hsep i) as [?|?]; [lia|by left|right; lia].
    + intros j Hj. replace (s + 1 + j) with (s + (j + 1)) by lia.
      destruct (Hsep (j + 1)) as [?|?]; [lia|by left|right; lia].
Qed.

Lemma copy_elements_same_frame n dt st d s w :
  same_frame w (copy_elements n dt st d s w).
Proof.
  revert d s w. induction n as [|n IH]; intros d s w; [done|]. simpl.
  destruct (IH (d + 1) (s + 1) (store dt d (load st s w) w)) as (?&?&?&?&?).
  repeat split; assumption.
Qed.

Lemma fill_same_frame n dt d v w : same_frame w (fill n dt d v w).
Proof.
  revert d w. induction n as [|n IH]; intros d w; [done|]. simpl.
  destruct (IH (d + 1) (store dt d (Some v) w)) as (?&?&?&?&?).
  repeat split; assumption.
Qed.

Lemma clobber_same_frame n dt d w : same_frame w (clobber n dt d w).
Proof.
  revert d w. induction n as [|n IH]; intros d w; [done|]. simpl.
  destruct (IH (d + 1) (store dt d None w)) as (?&?&?&?&?).
  repeat split; assumption.
Qed.

(** Equal cells give equal contents. *)
Lemma cells_ext w w' t t' p p' (n : Z) :
  (∀ i, 0 ≤ i < n → load t (p + i) w = load t' (p' + i) w') →
  cells w t p n = cells w' t' p' n.
Proof.
  intros Heq. unfold cells. apply list_eq; intros k.
  rewrite !list_lookup_fmap.
  destruct (seqZ 0 n !! k) as [i|] eqn:Hk; [|done]. simpl.
  apply lookup_seqZ in Hk as [-> Hk]. f_equal. apply Heq. lia.
Qed.

Lemma cells_length w t p (n : Z) : length (cells w t p n) = Z.to_nat n.
Proof. unfold cells. by rewrite length_fmap, length_seqZ. Qed.
End Heap.

(** ** Construction and placement *)

Section Construction.
Context {T : Type} `{!Inhabited T}.
Implicit Types (env : Env) (w : world T) (b : Buffer) (t : MemoryType).

(** The four alternatives are told apart by their index, and the index
    fixes the placement: 0 and 2 are host, 1 and 3 are device. *)
Lemma mem_type_by_index b :
  (index (data_ b) = 0 ∨ index (data_ b) = 1
   ∨ index (data_ b) = 2 ∨ index (data_ b) = 3)
  ∧ (mem_type b = HostMemory ↔ index (data_ b) = 0 ∨ index (data_ b) = 2)
  ∧ (mem_type b = DeviceMemory ↔ index (data_ b) = 1 ∨ index (data_ b) = 3).
Proof.
  unfold mem_type. rewrite placement_of_cases.
  destruct (data_ b); simpl; (split; [lia|]); split; split; intros; try done; lia.
Qed.

(** C2, at the constructor that borrows a raw pointer: whichever of the
    two [T*] alternatives its initialiser activates, the [memory_type]
    argument plays no part, so for one of the two placements the buffer
    reports the other one. *)
Theorem Buffer_borrowed_ignores_memory_type env (p : ptr) (n : size_type)
    (d : device_id_t) (s : cudaStream_t) :
  mem_type (Buffer_borrowed env p n HostMemory d s)
    = mem_type (Buffer_borrowed env p n DeviceMemory d s)
  ∧ ∃ t, mem_type (Buffer_borrowed env p n t d s) ≠ t.
Proof.
  split; [done|]. unfold Buffer_borrowed, mem_type. simpl.
  destruct (raw_is_device env).
  - by exists HostMemory.
  - by exists DeviceMemory.
Qed.

(** C8: a buffer that the sizing constructor returns reports the size and
    the placement it was asked for, and the constructor does return one
    whenever the runtime refuses nothing and the placement is available
    in the build. *)
Theorem Buffer_sized_reports env (n : size_type) t (d : device_id_t)
    (s : cudaStream_t) w :
  (∀ b w', Buffer_sized env n t d s w = Ret b w' →
           size b = n ∧ mem_type b = t ∧ device b = d ∧ stream b = s)
  ∧ (runtime_ok env → t = HostMemory ∨ IS_GPU_BUILD env = true →
     ∃ b w', Buffer_sized env n t d s w = Ret b w').
Proof.
  split.
  - intros b w'. unfold Buffer_sized. run.
    destruct (allocate env d n t w) as [v w1|] eqn:Ha; [|done].
    intros [= <- <-]. apply allocate_placement in Ha. by repeat split.
  - intros Hok Ht. unfold Buffer_sized. run.
    destruct (allocate_ok env d n t w Hok Ht) as (v & w1 & ->). eauto.
Qed.

(** C6: in a build without a device backend every owning construction
    that asks for device memory throws the Internal error of [allocate],
    whatever the runtime would answer, and leaves the world as it was:
    nothing is allocated in its place. *)
Theorem device_request_rejected_in_cpu_build env w :
  IS_GPU_BUILD env = false →
  let e := TritonException Internal
             "DeviceMemory requested in CPU-only build of FIL backend" in
  (∀ n d s, Buffer_sized env n DeviceMemory d s w = Throw e w)
  ∧ (∀ other d, Buffer_copy_to env other DeviceMemory d w = Throw e w)
  ∧ (∀ other, mem_type (objs w !!! other) ≠ DeviceMemory →
              Buffer_move_to env other DeviceMemory w = Throw e w)
  ∧ (∀ other, mem_type (objs w !!! other) = DeviceMemory →
              Buffer_copy_ctor env other w = Throw e w).
Proof.
  intros Hcpu e. repeat split.
  - intros n d s. unfold Buffer_sized. run. by rewrite allocate_cpu_only.
  - intros other d. unfold Buffer_copy_to. run. by rewrite allocate_cpu_only.
  - intros other Hne. unfold Buffer_move_to. run.
    destruct (decide _) as [Heq | _]; [by rewrite <- Heq in Hne|].
    run. by rewrite allocate_cpu_only.
  - intros other Heq. unfold Buffer_copy_ctor, Buffer_copy_to. run.
    rewrite Heq. by rewrite allocate_cpu_only.
Qed.
End Construction.

(** ** [set_stream] *)

Section Stream.
Context {T : Type} `{!Inhabited T}.
Implicit Types (env : Env) (w : world T) (b : Buffer) (t : MemoryType).

Lemma set_stream_unfold env (this : ref) (s : cudaStream_t) w :
  set_stream env this s w =
    let adopt := with_objs (λ o, <[this := with_stream s (o !!! this)]> o) in
    if IS_GPU_BUILD env then
      let c := StreamSynchronize (stream (objs w !!! this)) in
      if decide (status env (log w) c = cudaSuccess)
      then Ret () (adopt (with_log c w))
      else Throw (TritonException Internal
                    (cudaGetErrorString env (status env (log w) c)))
                 (with_log c w)
    else Ret () (adopt w).
Proof.
  unfold set_stream. run. destruct (IS_GPU_BUILD env); run; [|done].
  unfold stream. by case_status.
Qed.

(** C9, as the code has it. In a GPU build [set_stream] first asks the
    runtime to synchronise the stream the buffer is on; if that fails the
    error is thrown with the stream member still the old one, otherwise
    the member is assigned and [stream()] reports [s]. In a CPU-only build
    nothing is synchronised and the member is just assigned. *)
Theorem set_stream_sync_then_assign env (this : ref) (s : cudaStream_t) w :
  let old := stream (objs w !!! this) in
  let o := set_stream env this s w in
  (IS_GPU_BUILD env = true →
     log (final o) = log w ++ [StreamSynchronize old]
     ∧ (status env (log w) (StreamSynchronize old) = cudaSuccess →
          o = Ret () (final o) ∧ stream (objs (final o) !!! this) = s)
     ∧ (status env (log w) (StreamSynchronize old) ≠ cudaSuccess →
          (∃ msg, o = Throw (TritonException Internal msg) (final o))
          ∧ objs (final o) = objs w))
  ∧ (IS_GPU_BUILD env = false →
       o = Ret () (final o) ∧ log (final o) = log w
       ∧ stream (objs (final o) !!! this) = s).
Proof.
  intros old o. subst o. rewrite set_stream_unfold. fold old. simpl.
  destruct (IS_GPU_BUILD env); split; try done.
  - intros _. destruct (decide _) as [Hs | Hs]; simpl.
    + split; [done|]. split; [|done]. intros _. split; [done|].
      rewrite lookup_total_insert_eq. apply with_stream_fields.
    + split; [done|]. split; [done|]. intros _. split; [eauto|done].
  - intros _. simpl. split; [done|]. split; [done|].
    rewrite lookup_total_insert_eq. apply with_stream_fields.
Qed.
End Stream.

(** ** Copies between buffers *)

Section Copying.
Context {T : Type} `{!Inhabited T}.
Implicit Types (env : Env) (w : world T) (b : Buffer) (t : MemoryType).
Implicit Types (dst src : ref) (db sb se : size_type).

Lemma reconcile_cases env dst src w :
  let d := objs w !!! dst in
  let s := objs w !!! src in
  let c := StreamSynchronize (stream d) in
  (stream d = stream s ∧ reconcile env dst src w = Ret () w)
  ∨ (stream d ≠ stream s ∧ IS_GPU_BUILD env = false
     ∧ reconcile env dst src w = Ret () (adopted dst (stream s) w))
  ∨ (stream d ≠ stream s ∧ IS_GPU_BUILD env = true
     ∧ status env (log w) c = cudaSuccess
     ∧ reconcile env dst src w = Ret () (adopted dst (stream s) (with_log c w)))
  ∨ (stream d ≠ stream s ∧ IS_GPU_BUILD env = true
     ∧ status env (log w) c ≠ cudaSuccess
     ∧ reconcile env dst src w =
         Throw (TritonException Internal
                  (cudaGetErrorString env (status env (log w) c)))
               (with_log c w)).
Proof.
  intros d s c. unfold reconcile. run. fold d s.
  destruct (decide (stream d ≠ stream s)) as [Hne | Heq].
  - right. rewrite set_stream_unfold. fold d c. simpl.
    destruct (IS_GPU_BUILD env); [right|left; done].
    destruct (decide _); [left|right]; done.
  - left. split; [|done]. by destruct (decide (stream d = stream s)).
Qed.

Lemma adopted_dst dst s w :
  objs (adopted dst s w) !!! dst = with_stream s (objs w !!! dst).
Proof. unfold adopted. simpl. by rewrite lookup_total_insert_eq. Qed.

Lemma adopted_other dst src s w :
  dst ≠ src → objs (adopted dst s w) !!! src = objs w !!! src.
Proof. intros. unfold adopted. simpl. by rewrite lookup_total_insert_ne. Qed.

Lemma copy_unfold env dst src db sb se w :
  copy env dst src db sb se w =
    match reconcile env dst src w with
    | Throw e w1 => Throw e w1
    | Ret _ w1 =>
        let d := objs w1 !!! dst in
        let s := objs w1 !!! src in
        let len := to_size_type (se - sb) in
        if (len <? 0) || (size s <? se) || (to_size_type (size d - db) <? len)
        then Throw (TritonException Internal "bad copy between buffers") w1
        else detail_copy env (data d + db) (data s + sb) len
               (Some (stream d)) (mem_type d) (mem_type s) w1
    end.
Proof.
  unfold copy, reconcile. run.
  destruct (decide _); run; [|by destruct (_ || _)].
  destruct (set_stream _ _ _ _); [|done]. by destruct (_ || _).
Qed.

(** What [detail::copy] can change: cells of the destination span. *)
Lemma detail_copy_effect env (d s : ptr) (len : size_type) st dt stt w :
  let o := detail_copy env d s len st dt stt w in
  objs (final o) = objs w
  ∧ (∀ t q, outside dt d (Z.to_nat len) t q →
            load t q (final o) = load t q w)
  ∧ (∀ e w', o = Throw e w' → ∃ msg, e = TritonException Internal msg).
Proof.
  unfold detail_copy. destruct (decide (len = 0)); run; [done|].
  case_status; run.
  - split; [|split; [|done]].
    + by destruct (copy_elements_same_frame (Z.to_nat len) dt stt d s
                     (with_log (RawCopy d s len st dt stt) w))
        as (_ & _ & _ & -> & _).
    + intros t q Hout. by rewrite copy_elements_frame.
  - split; [|split; [|intros ?? [= <- _]; eauto]].
    + by destruct (clobber_same_frame (Z.to_nat len) dt d
                     (with_log (RawCopy d s len st dt stt) w))
        as (_ & _ & _ & -> & _).
    + intros t q Hout. by rewrite clobber_frame.
Qed.

Lemma detail_copy_zero env (d s : ptr) st dt stt w :
  detail_copy env d s 0 st dt stt w = Ret () w.
Proof. done. Qed.

Lemma cells_same_heap w w' t (p : ptr) (n : size_type) :
  heap w' = heap w → cells w' t p n = cells w t p n.
Proof. intros Hh. apply cells_ext. intros. unfold load. by rewrite Hh. Qed.
End Copying.

Section RangedCopy.
Context {T : Type} `{!Inhabited T}.
Implicit Types (env : Env) (w : world T) (b : Buffer) (t : MemoryType).
Implicit Types (dst src : ref) (db sb se : size_type).

Lemma range_check_fires (dn sn : size_type) db sb se :
  in_size_type db → in_size_type sb → in_size_type se → in_size_type dn →
  sb ≤ se → db ≤ dn →
  sn < se ∨ dn - db < se - sb →
  (to_size_type (se - sb) <? 0) || (sn <? se)
    || (to_size_type (dn - db) <? to_size_type (se - sb)) = true.
Proof.
  unfold in_size_type. intros ?????? Hbad.
  rewrite !to_size_type_small by lia.
  destruct Hbad as [Hs | Hd].
  - apply Z.ltb_lt in Hs as ->. by rewrite orb_true_r.
  - apply Z.ltb_lt in Hd as ->. by rewrite orb_true_r.
Qed.

Lemma range_check_empty (dn sn : size_type) db sb :
  sb ≤ sn →
  (to_size_type (sb - sb) <? 0) || (sn <? sb)
    || (to_size_type (dn - db) <? to_size_type (sb - sb)) = false.
Proof.
  intros Hs. rewrite Z.sub_diag. change (to_size_type 0) with 0.
  rewrite Z.ltb_irrefl. simpl.
  apply orb_false_iff. split; apply Z.ltb_ge; [done|].
  apply to_size_type_range.
Qed.

Lemma streams_differ_refs_differ w dst src :
  stream (objs w !!! dst) ≠ stream (objs w !!! src) → dst ≠ src.
Proof. by intros Hne ->. Qed.

Lemma with_stream_back s b : with_stream (stream b) (with_stream s b) = b.
Proof. by destruct b. Qed.

(** C1, as the code has it. On offsets whose differences do not wrap
    ([src_begin ≤ src_end] and [dst_begin ≤ dst.size()]), a range that
    ends past the source or does not fit the destination makes [copy]
    throw an Internal error with the heap untouched and [src] as it was.
    The streams are reconciled before the range is looked at: unless the
    synchronisation itself failed, the error is the range error and [dst]
    has by then taken the stream of [src]; nothing else of [dst] changes. *)
Theorem copy_rejects_bad_range env dst src db sb se w :
  let d := objs w !!! dst in
  let s := objs w !!! src in
  in_size_type db → in_size_type sb → in_size_type se →
  in_size_type (size d) →
  sb ≤ se → db ≤ size d →
  size s < se ∨ size d - db < se - sb →
  ∃ msg w',
    copy env dst src db sb se w = Throw (TritonException Internal msg) w'
    ∧ heap w' = heap w
    ∧ objs w' !!! src = s
    ∧ with_stream (stream d) (objs w' !!! dst) = d
    ∧ ((msg = "bad copy between buffers"%string
        ∧ objs w' = if decide (stream d = stream s) then objs w
                    else <[dst := with_stream (stream s) d]> (objs w))
       ∨ (IS_GPU_BUILD env = true ∧ stream d ≠ stream s
          ∧ status env (log w) (StreamSynchronize (stream d)) ≠ cudaSuccess
          ∧ objs w' = objs w)).
Proof.
  intros d s Hdb Hsb Hse Hdn Hord Hfit Hbad. rewrite copy_unfold.
  destruct (reconcile_cases env dst src w)
    as [(Heq & ->) | [(Hne & Hcpu & ->) | [(Hne & Hgpu & Hok & ->)
                                          | (Hne & Hgpu & Hfail & ->)]]];
    fold d s in Heq || fold d s in Hne.
  - cbv beta iota zeta. fold d s. rewrite range_check_fires by done.
    eexists _, _. split; [done|]. split; [done|]. split; [done|].
    split; [apply with_stream_same|]. left.
    by destruct (decide (stream d = stream s)).
  - pose proof (streams_differ_refs_differ w dst src Hne) as Hrefs.
    cbv beta iota zeta. rewrite adopted_dst, adopted_other by done.
    change (objs (with_log _ w)) with (objs w). fold d s.
    destruct (with_stream_fields (stream s) d) as (_ & _ & -> & _).
    rewrite range_check_fires by done.
    eexists _, _. split; [done|]. split; [done|].
    rewrite adopted_dst, adopted_other by done.
    change (objs (with_log _ w)) with (objs w). fold d s.
    split; [done|]. split; [apply with_stream_back|]. left.
    by destruct (decide (stream d = stream s)).
  - pose proof (streams_differ_refs_differ w dst src Hne) as Hrefs.
    cbv beta iota zeta. rewrite adopted_dst, adopted_other by done.
    change (objs (with_log _ w)) with (objs w). fold d s.
    destruct (with_stream_fields (stream s) d) as (_ & _ & -> & _).
    rewrite range_check_fires by done.
    eexists _, _. split; [done|]. split; [done|].
    rewrite adopted_dst, adopted_other by done.
    change (objs (with_log _ w)) with (objs w). fold d s.
    split; [done|]. split; [apply with_stream_back|]. left.
    by destruct (decide (stream d = stream s)).
  - eexists _, _. split; [done|]. split; [done|]. split; [done|].
    split; [apply with_stream_same|]. right. by fold d.
Qed.

(** C5, as the code has it: an empty range that ends within the source
    is copied without error, whatever [dst_begin] is, and leaves every
    cell of the heap, hence the contents of both buffers, as they were;
    this needs the reconciliation of the streams not to fail. *)
Theorem copy_empty_range env dst src db sb w :
  let d := objs w !!! dst in
  let s := objs w !!! src in
  sb ≤ size s →
  stream d = stream s ∨ IS_GPU_BUILD env = false
    ∨ status env (log w) (StreamSynchronize (stream d)) = cudaSuccess →
  ∃ w',
    copy env dst src db sb sb w = Ret () w'
    ∧ heap w' = heap w
    ∧ contents w' (objs w' !!! dst) = contents w d
    ∧ contents w' (objs w' !!! src) = contents w s.
Proof.
  intros d s Hin Hsync. rewrite copy_unfold.
  destruct (reconcile_cases env dst src w)
    as [(Heq & ->) | [(Hne & Hcpu & ->) | [(Hne & Hgpu & Hok & ->)
                                          | (Hne & Hgpu & Hfail & _)]]];
    fold d s in Heq || fold d s in Hne.
  - cbv beta iota zeta. fold d s. rewrite range_check_empty by done.
    rewrite Z.sub_diag. change (to_size_type 0) with 0.
    rewrite detail_copy_zero. by exists w.
  - pose proof (streams_differ_refs_differ w dst src Hne) as Hrefs.
    cbv beta iota zeta. rewrite adopted_dst, adopted_other by done.
    change (objs (with_log _ w)) with (objs w). fold d s.
    rewrite range_check_empty by done.
    rewrite Z.sub_diag. change (to_size_type 0) with 0.
    rewrite detail_copy_zero. eexists. split; [done|]. split; [done|].
    rewrite adopted_dst, adopted_other by done.
    change (objs (with_log _ w)) with (objs w). fold d s.
    split; by apply cells_same_heap.
  - pose proof (streams_differ_refs_differ w dst src Hne) as Hrefs.
    cbv beta iota zeta. rewrite adopted_dst, adopted_other by done.
    change (objs (with_log _ w)) with (objs w). fold d s.
    rewrite range_check_empty by done.
    rewrite Z.sub_diag. change (to_size_type 0) with 0.
    rewrite detail_copy_zero. eexists. split; [done|]. split; [done|].
    rewrite adopted_dst, adopted_other by done.
    change (objs (with_log _ w)) with (objs w). fold d s.
    split; by apply cells_same_heap.
  - exfalso. destruct Hsync as [? | [Hcpu | ?]]; [done| |done].
    by rewrite Hcpu in Hgpu.
Qed.
End RangedCopy.

Section CopyFrame.
Context {T : Type} `{!Inhabited T}.
Implicit Types (env : Env) (w : world T) (b : Buffer) (t : MemoryType).
Implicit Types (dst src : ref) (db sb se : size_type).

(** Whether or not it throws, the reconciliation leaves the heap and
    [src] alone, and [dst] is either as it was or on the stream of [src]. *)
Lemma reconcile_summary env dst src w :
  let d := objs w !!! dst in
  let s := objs w !!! src in
  let w1 := final (reconcile env dst src w) in
  heap w1 = heap w
  ∧ objs w1 !!! src = s
  ∧ (objs w1 !!! dst = d
     ∨ (stream d ≠ stream s ∧ objs w1 !!! dst = with_stream (stream s) d)).
Proof.
  intros d s.
  destruct (reconcile_cases env dst src w)
    as [(Heq & ->) | [(Hne & Hcpu & ->) | [(Hne & Hgpu & Hok & ->)
                                          | (Hne & Hgpu & Hfail & ->)]]];
    cbv beta iota zeta delta [final].
  - auto.
  - pose proof (streams_differ_refs_differ w dst src Hne).
    rewrite adopted_dst, adopted_other by done. auto.
  - pose proof (streams_differ_refs_differ w dst src Hne).
    rewrite adopted_dst, adopted_other by done. auto.
  - auto.
Qed.

(** C10, as the code has it. Whatever the outcome of [copy], the object
    [src] is as it was; [dst] differs from what it was at most in its
    stream, and then the streams differed at entry and [dst] is now on
    the stream of [src]. The contents of [src] are as they were provided
    the destination span lies within [dst] and does not reach into the
    storage of [src]. *)
Theorem copy_frame env dst src db sb se w :
  let d := objs w !!! dst in
  let s := objs w !!! src in
  let w' := final (copy env dst src db sb se w) in
  let len := to_size_type (se - sb) in
  objs w' !!! src = s
  ∧ with_stream (stream d) (objs w' !!! dst) = d
  ∧ (stream (objs w' !!! dst) ≠ stream d →
     stream d ≠ stream s ∧ stream (objs w' !!! dst) = stream s)
  ∧ (0 ≤ db → db + len ≤ size d →
     mem_type d ≠ mem_type s ∨ data d + db + len ≤ data s
     ∨ data s + size s ≤ data d + db →
     contents w' s = contents w s).
Proof.
  intros d s w' len.
  assert (∃ w1,
    heap w1 = heap w ∧ objs w1 !!! src = s
    ∧ (objs w1 !!! dst = d
       ∨ (stream d ≠ stream s ∧ objs w1 !!! dst = with_stream (stream s) d))
    ∧ objs w' = objs w1
    ∧ (∀ t q, outside (mem_type d) (data d + db) (Z.to_nat len) t q →
              load t q w' = load t q w1)) as (w1 & Hheap & Hsrc & Hdst & Hobjs & Hfr).
  { subst w'. rewrite copy_unfold.
    pose proof (reconcile_summary env dst src w) as (Hheap & Hsrc & Hdst).
    fold d s in Hheap, Hsrc, Hdst.
    destruct (reconcile env dst src w) as [[] w1 | e w1];
      cbv beta iota zeta delta [final] in Hheap, Hsrc, Hdst;
      [|exists w1; by repeat split].
    exists w1. do 3 (split; [done|]). cbv zeta. fold len.
    destruct (_ || _); [done|].
    match goal with
    | |- context [detail_copy ?e ?a ?b ?l ?st ?dt ?stt ?w0] =>
        pose proof (detail_copy_effect e a b l st dt stt w0) as (Ho & Hf & _)
    end.
    split; [exact Ho|]. intros t q Hout. apply Hf.
    by destruct Hdst as [-> | [_ ->]]. }
  rewrite Hobjs. split; [done|]. split; [|split].
  - destruct Hdst as [-> | [_ ->]];
      [apply with_stream_same | apply with_stream_back].
  - destruct Hdst as [-> | [Hne ->]]; [done|]. intros _. split; [done|].
    apply with_stream_fields.
  - intros _ _ Hsep. unfold contents. apply cells_ext. intros i Hi.
    rewrite Hfr; [unfold load; by rewrite Hheap|].
    pose proof (to_size_type_range (se - sb)). fold len in H.
    unfold outside. rewrite Z2Nat.id by lia.
    destruct Hsep as [? | [? | ?]]; [by left | right; right; lia | right; left; lia].
Qed.

(** *** The overloads with fewer offsets *)

(** [copy(dst, src)] is the five-argument form on the whole source. *)
Lemma copy_all_unfold env dst src w :
  copy_all env dst src w
  = copy env dst src 0 0 (to_size_type (0 + size (objs w !!! src))) w.
Proof. done. Qed.

(** [copy(dst, src, dst_begin)] is the five-argument form on the whole
    source, written at [dst_begin]. *)
Lemma copy_at_unfold env dst src db w :
  copy_at env dst src db w
  = copy env dst src db 0 (to_size_type (0 + size (objs w !!! src))) w.
Proof. done. Qed.

(** [copy(dst, src, src_begin, src_end)] starts at the first element of
    the source, whatever [src_begin] is. *)
Lemma copy_range_unfold env (free_dst_begin : size_type) dst src sb se w :
  copy_range env free_dst_begin dst src sb se w
  = copy env dst src free_dst_begin 0 (to_size_type (0 + se)) w.
Proof. done. Qed.
End CopyFrame.

(** ** Constructing one buffer from another *)

Section Relocation.
Context {T : Type} `{!Inhabited T}.
Implicit Types (env : Env) (w : world T) (b : Buffer) (t : MemoryType).

(** [allocate] hands out the block at the break of the placement and
    touches no cell outside it. *)
Lemma allocate_effect env (dev : device_id_t) (n : size_type) t w v w2 :
  allocate env dev n t w = Ret v w2 →
  v = owned t (brk t w)
  ∧ objs w2 = objs w
  ∧ (∀ t' q, outside t (brk t w) (Z.to_nat n) t' q →
             load t' q w2 = load t' q w).
Proof.
  unfold allocate, make_unique, dev_allocate. run.
  destruct (decide (t = DeviceMemory)) as [-> | Ht].
  - destruct (IS_GPU_BUILD env); [|done].
    repeat (case_status; run; try done).
    by intros [= <- <-].
  - destruct t; [|done]. case_status; run; [|done].
    intros [= <- <-]. split; [done|]. split.
    + by match goal with
         | |- objs (fill ?n ?t ?p ?v ?w0) = _ =>
             destruct (fill_same_frame n t p v w0) as (_ & _ & _ & -> & _)
         end.
    + intros t' q Hout. by rewrite fill_frame.
Qed.

(** A successful [detail::copy] between spans that do not meet gives each
    destination cell the value of its source cell and leaves the cells
    outside the destination span alone. *)
Lemma detail_copy_result env (d s : ptr) (len : size_type) st dt stt w w' :
  detail_copy env d s len st dt stt w = Ret () w' →
  (∀ j, 0 ≤ j < len → outside dt d (Z.to_nat len) stt (s + j)) →
  ∀ i, 0 ≤ i < len → load dt (d + i) w' = load stt (s + i) w.
Proof.
  unfold detail_copy. destruct (decide (len = 0)); run; [lia|].
  case_status; run; [|done].
  intros [= <-] Hsep i Hi.
  rewrite copy_elements_result; [done| |lia].
  intros j Hj. apply Hsep. lia.
Qed.

(** The step every relocating constructor takes: allocate in [t], then
    copy the elements of [b] over. *)
Lemma allocate_then_copy env (dev : device_id_t) t b w v w2 w3 :
  allocate env dev (size b) t w = Ret v w2 →
  Buffer_copy env v (data_ b) (size b) (stream b) w2 = Ret () w3 →
  t ≠ mem_type b ∨ data b + size b ≤ brk t w →
  v = owned t (brk t w)
  ∧ objs w3 = objs w
  ∧ cells w3 t (brk t w) (size b) = contents w b
  ∧ contents w3 b = contents w b.
Proof.
  intros Ha Hc Hsep.
  apply allocate_effect in Ha as (-> & Ho2 & Hf2).
  unfold Buffer_copy in Hc. cbv zeta in Hc.
  replace (get_raw_ptr (owned t (brk t w))) with (brk t w) in Hc by by destruct t.
  replace (placement_of (owned t (brk t w))) with t in Hc by by destruct t.
  fold (data b) (mem_type b) in Hc.
  assert (∀ j, 0 ≤ j < size b →
               outside t (brk t w) (Z.to_nat (size b)) (mem_type b) (data b + j))
    as Hout.
  { intros j Hj. unfold outside. destruct Hsep; [by left | right; left; lia]. }
  pose proof (detail_copy_effect env (brk t w) (data b) (size b) None t
                (mem_type b) w2) as (Ho3 & Hf3 & _).
  rewrite Hc in Ho3, Hf3. simpl in Ho3, Hf3.
  split; [done|]. split; [congruence|]. split.
  - apply cells_ext. intros i Hi.
    rewrite (detail_copy_result _ _ _ _ _ _ _ _ _ Hc) by done. by apply Hf2, Hout.
  - apply cells_ext. intros i Hi. rewrite Hf3 by by apply Hout. by apply Hf2, Hout.
Qed.

Lemma allocate_then_copy_ok env (dev : device_id_t) t b w :
  runtime_ok env → t = HostMemory ∨ IS_GPU_BUILD env = true →
  ∃ v w2 w3,
    allocate env dev (size b) t w = Ret v w2
    ∧ Buffer_copy env v (data_ b) (size b) (stream b) w2 = Ret () w3.
Proof.
  intros Hok Ht. destruct (allocate_ok env dev (size b) t w Hok Ht) as (v & w2 & ->).
  exists v, w2. unfold Buffer_copy, detail_copy. cbv zeta.
  destruct (decide (size b = 0)); run; [eauto|].
  rewrite Hok. run. eauto.
Qed.
End Relocation.

Section FromAnother.
Context {T : Type} `{!Inhabited T}.
Implicit Types (env : Env) (w : world T) (b : Buffer) (t : MemoryType).

Lemma Buffer_copy_to_effect env (other : ref) t (dev : device_id_t) w b' w' :
  let b := objs w !!! other in
  Buffer_copy_to env other t dev w = Ret b' w' →
  t ≠ mem_type b ∨ data b + size b ≤ brk t w →
  b' = {| device_ := dev; data_ := owned t (brk t w);
          size_ := size b; stream_ := stream b |}
  ∧ objs w' = objs w
  ∧ contents w' b' = contents w b
  ∧ contents w' b = contents w b.
Proof.
  intros b H Hsep. unfold Buffer_copy_to in H. run.
  destruct (allocate _ _ _ _ _) as [v w2|] eqn:Ha; [|done].
  pose proof (allocate_effect _ _ _ _ _ _ _ Ha) as (_ & Ho2 & _).
  rewrite Ho2 in H.
  destruct (Buffer_copy _ _ _ _ _ _) as [[] w3|] eqn:Hc; [|done].
  destruct (allocate_then_copy env dev t b w v w2 w3 Ha Hc Hsep)
    as (-> & Ho3 & Hcells & Hsame).
  rewrite Ho3 in H. injection H as <- <-.
  repeat split; [done| |done].
  unfold contents, mem_type, data. simpl.
  replace (placement_of (owned t (brk t w))) with t by by destruct t.
  replace (get_raw_ptr (owned t (brk t w))) with (brk t w) by by destruct t.
  done.
Qed.

Lemma Buffer_copy_to_ok env (other : ref) t (dev : device_id_t) w :
  runtime_ok env → t = HostMemory ∨ IS_GPU_BUILD env = true →
  ∃ b' w', Buffer_copy_to env other t dev w = Ret b' w'.
Proof.
  intros Hok Ht. unfold Buffer_copy_to. run.
  destruct (allocate_then_copy_ok env dev t (objs w !!! other) w Hok Ht)
    as (v & w2 & w3 & Ha & Hc).
  match goal with
  | |- context [allocate ?e ?d ?n ?t0 ?w0] =>
      replace (allocate e d n t0 w0) with (Ret (T:=T) v w2)
        by (symmetry; exact Ha)
  end.
  apply allocate_effect in Ha as (_ & -> & _).
  match goal with
  | |- context [Buffer_copy ?e ?a ?c ?n ?s ?w0] =>
      replace (Buffer_copy e a c n s w0) with (Ret (T:=T) () w3)
        by (symmetry; exact Hc)
  end.
  eauto.
Qed.

(** C7: for a buffer [b] whose elements lie in storage already handed
    out, a copy that the copy constructor returns is an owning buffer of
    the size, placement, device and stream of [b], at an address other
    than that of [b], holding the same elements, with [b] and its
    contents as they were; and the constructor does return one whenever
    the runtime refuses nothing and the placement of [b] is available in
    the build. *)
Theorem Buffer_copy_ctor_deep env (other : ref) w :
  let b := objs w !!! other in
  data b < brk (mem_type b) w →
  data b + size b ≤ brk (mem_type b) w →
  (∀ b' w', Buffer_copy_ctor env other w = Ret b' w' →
     size b' = size b ∧ mem_type b' = mem_type b
     ∧ stream b' = stream b ∧ device b' = device b
     ∧ (index (data_ b') = 2 ∨ index (data_ b') = 3)
     ∧ data b' ≠ data b
     ∧ contents w' b' = contents w b
     ∧ objs w' !!! other = b
     ∧ contents w' b = contents w b)
  ∧ (runtime_ok env → mem_type b = HostMemory ∨ IS_GPU_BUILD env = true →
     ∃ b' w', Buffer_copy_ctor env other w = Ret b' w').
Proof.
  intros b Hin Hend. split.
  - intros b' w' H.
    change (Buffer_copy_to env other (mem_type b) (device b) w = Ret b' w') in H.
    apply Buffer_copy_to_effect in H as (Hb' & Ho & Hc & Hs); [|by right].
    fold b in Hb', Hc, Hs. rewrite Ho. fold b.
    split; [by rewrite Hb'|]. split; [rewrite Hb'; by destruct (mem_type b)|].
    split; [by rewrite Hb'|]. split; [by rewrite Hb'|].
    split; [rewrite Hb'; destruct (mem_type b); simpl; auto|].
    split; [|done].
    rewrite Hb'. unfold data at 1. simpl.
    replace (get_raw_ptr (owned (mem_type b) (brk (mem_type b) w)))
      with (brk (mem_type b) w) by by destruct (mem_type b).
    lia.
  - intros Hok Ht.
    change (∃ b' w', Buffer_copy_to env other (mem_type b) (device b) w = Ret b' w').
    by apply Buffer_copy_to_ok.
Qed.

(** C3, as the code has it. Moving to the placement [b] already has
    hands the variant over: the new buffer has the pointer, size, device
    and stream [b] had, no runtime call is made and no cell is written;
    the source keeps its size, and keeps its pointer too unless it owned
    the storage. Moving to the other placement allocates there and copies
    the elements over, and the source object is left exactly as it was. *)
Theorem Buffer_move_to_effect env (other : ref) t w :
  let b := objs w !!! other in
  (t = mem_type b →
     Buffer_move_to env other t w
     = Ret b (with_objs (λ o, <[other := with_data (moved_from (data_ b)) b]> o) w))
  ∧ (t ≠ mem_type b →
     (∀ b' w', Buffer_move_to env other t w = Ret b' w' →
        mem_type b' = t ∧ data b' = brk t w ∧ size b' = size b
        ∧ device b' = device b ∧ stream b' = stream b
        ∧ contents w' b' = contents w b
        ∧ objs w' = objs w
        ∧ contents w' b = contents w b)
     ∧ (runtime_ok env → t = HostMemory ∨ IS_GPU_BUILD env = true →
        ∃ b' w', Buffer_move_to env other t w = Ret b' w')).
Proof.
  intros b. split.
  - intros ->. unfold Buffer_move_to. run. fold b.
    destruct (decide _) as [_ | Hne]; [|done]. run.
    rewrite lookup_total_insert_eq. fold b.
    match goal with
    | |- Ret ?r _ = _ => replace r with b by (symmetry; exact (Buffer_eta b))
    end.
    done.
  - intros Hne. split.
    + intros b' w' H. unfold Buffer_move_to in H. run. fold b in H.
      destruct (decide _) as [Heq | _]; [done|]. run.
      destruct (allocate _ _ _ _ _) as [v w2|] eqn:Ha; [|done].
      pose proof (allocate_effect _ _ _ _ _ _ _ Ha) as (_ & Ho2 & _).
      rewrite Ho2 in H. fold b in H.
      destruct (Buffer_copy _ _ _ _ _ _) as [[] w3|] eqn:Hc; [|done].
      destruct (allocate_then_copy env (device b) t b w v w2 w3 Ha Hc)
        as (-> & Ho3 & Hcells & Hsame); [by left|].
      run. rewrite Ho3 in H. fold b in H. injection H as <- <-.
      unfold contents at 1. unfold mem_type, data. simpl.
      replace (placement_of (owned t (brk t w))) with t by by destruct t.
      replace (get_raw_ptr (owned t (brk t w))) with (brk t w) by by destruct t.
      by repeat split.
    + intros Hok Ht. unfold Buffer_move_to. run. fold b.
      destruct (decide _) as [Heq | _]; [done|]. run.
      destruct (allocate_then_copy_ok env (device b) t b w Hok Ht)
        as (v & w2 & w3 & Ha & Hc).
      match goal with
      | |- context [allocate ?e ?d ?n ?t0 ?w0] =>
          replace (allocate e d n t0 w0) with (Ret (T:=T) v w2)
            by (symmetry; exact Ha)
      end.
      apply allocate_effect in Ha as (_ & Ho2 & _). rewrite Ho2.
      match goal with
      | |- context [Buffer_copy ?e ?a ?c ?n ?s ?w0] =>
          replace (Buffer_copy e a c n s w0) with (Ret (T:=T) () w3)
            by (symmetry; exact Hc)
      end.
      eauto.
Qed.
End FromAnother.

Section Placement.
Context {T : Type} `{!Inhabited T}.
Implicit Types (env : Env) (w : world T) (b : Buffer) (t : MemoryType).

(** The relocating copy constructor activates the owning alternative of
    the placement it is given. *)
Lemma Buffer_copy_to_placement env (other : ref) t (dev : device_id_t) w b' w' :
  Buffer_copy_to env other t dev w = Ret b' w' →
  mem_type b' = t ∧ device b' = dev.
Proof.
  unfold Buffer_copy_to. run.
  destruct (allocate _ _ _ _ _) as [v w2|] eqn:Ha; [|done].
  destruct (Buffer_copy _ _ _ _ _ _) as [[] w3|]; [|done].
  intros [= <- _]. apply allocate_placement in Ha. by split.
Qed.
End Placement.

(** ** The theorems on concrete runs *)

(** C4, at its third overload. [copy(dst, src, src_begin, src_end)] with
    [src_begin = 1] and [src_end = 2] on a source holding [1; 2], even with
    the stray [dst_begin] of its body taken to be 0: it writes the first
    element of the source to the head of the destination, where
    [copy(dst, src, 0, 1, 2)] writes the second. *)
Theorem copy_range_ignores_src_begin :
  load HostMemory 30
    (final (copy_range (ok_runtime false false) 0 1%N 2%N 1 2 apart_world))
  = Some 1
  ∧ load HostMemory 30
      (final (copy (ok_runtime false false) 1%N 2%N 0 1 2 apart_world))
    = Some 2
  ∧ copy_range (ok_runtime false false) 0 1%N 2%N 1 2 apart_world
    = copy (ok_runtime false false) 1%N 2%N 0 0 2 apart_world.
Proof. by vm_compute. Qed.

(** A range that ends past the source is refused, yet the destination has
    left stream 5 for stream 6 by the time the error is thrown. *)
Lemma copy_bad_range_moves_stream :
  size (objs shared_world !!! 2%N) < 3
  ∧ stream (objs shared_world !!! 1%N) = 5
  ∧ ∃ w', copy (ok_runtime true false) 1%N 2%N 0 0 3 shared_world
          = Throw (TritonException Internal "bad copy between buffers") w'
          ∧ stream (objs w' !!! 1%N) = 6
          ∧ log w' = [StreamSynchronize 5].
Proof.
  split; [done|]. split; [done|].
  eexists. split; [by vm_compute|]. by vm_compute.
Qed.

Lemma copy_rejects_bad_range_witness :
  size (objs shared_world !!! 2%N) < 3
  ∧ ∃ msg w',
      copy (ok_runtime true false) 1%N 2%N 0 0 3 shared_world
      = Throw (TritonException Internal msg) w'
      ∧ heap w' = heap shared_world
      ∧ objs w' !!! 2%N = objs shared_world !!! 2%N.
Proof.
  split; [done|].
  destruct (copy_rejects_bad_range (T:=Z) (ok_runtime true false)
              1%N 2%N 0 0 3 shared_world)
    as (msg & w' & Hthrow & Hheap & Hsrc & _);
    [by vm_compute | by vm_compute | by vm_compute | by vm_compute
    | by vm_compute | by vm_compute | left; by vm_compute |].
  exists msg, w'. by repeat split.
Defined.

(** The test [len < 0] is made on an unsigned [len]. A range that ends
    before it starts wraps to a positive length, here to 1, and the copy
    is not refused. *)
Lemma copy_reversed_range_accepted :
  to_size_type (0 - (2 ^ 64 - 1)) = 1
  ∧ ∃ w', copy (ok_runtime false false) 1%N 2%N 0 (2 ^ 64 - 1) 0 apart_world
          = Ret () w'.
Proof. split; [done|]. eexists. by vm_compute. Qed.

(** An empty range that starts and ends at 5, past a source of two
    elements, is refused. *)
Lemma copy_empty_range_past_end :
  size (objs apart_world !!! 2%N) = 2
  ∧ copy (ok_runtime false false) 1%N 2%N 0 5 5 apart_world
    = Throw (TritonException Internal "bad copy between buffers") apart_world.
Proof. by vm_compute. Qed.

Lemma copy_empty_range_witness :
  2 ≤ size (objs shared_world !!! 2%N)
  ∧ ∃ w', copy (ok_runtime true false) 1%N 2%N 7 2 2 shared_world = Ret () w'
          ∧ heap w' = heap shared_world.
Proof.
  split; [done|].
  destruct (copy_empty_range (T:=Z) (ok_runtime true false) 1%N 2%N 7 2
              shared_world) as (w' & Hret & Hheap & _);
    [by vm_compute | right; right; by vm_compute |].
  by exists w'.
Defined.

(** Two buffers over the same array: copying the second element of the
    source to the head of the destination rewrites the source. *)
Lemma copy_overlap_rewrites_src :
  contents shared_world (objs shared_world !!! 2%N) = [Some 1; Some 2]
  ∧ ∃ w', copy (ok_runtime true false) 1%N 2%N 0 1 2 shared_world = Ret () w'
          ∧ contents w' (objs w' !!! 2%N) = [Some 2; Some 2].
Proof. split; [done|]. eexists. split; by vm_compute. Qed.

Lemma copy_frame_witness :
  0 + to_size_type (2 - 1) ≤ size (objs apart_world !!! 1%N)
  ∧ data (objs apart_world !!! 2%N) + size (objs apart_world !!! 2%N)
    ≤ data (objs apart_world !!! 1%N) + 0
  ∧ contents (final (copy (ok_runtime true false) 1%N 2%N 0 1 2 apart_world))
      (objs apart_world !!! 2%N)
    = contents apart_world (objs apart_world !!! 2%N).
Proof.
  split; [by vm_compute|]. split; [by vm_compute|].
  destruct (copy_frame (T:=Z) (ok_runtime true false) 1%N 2%N 0 1 2 apart_world)
    as (_ & _ & _ & Hcontents).
  apply Hcontents; [done | by vm_compute | right; right; by vm_compute].
Defined.

(** In a CPU-only build [set_stream] asks the runtime for nothing. *)
Lemma set_stream_cpu_build_no_sync :
  stream (objs shared_world !!! 1%N) = 5
  ∧ ∃ w', set_stream (ok_runtime false false) 1%N 9 shared_world = Ret () w'
          ∧ log w' = []
          ∧ stream (objs w' !!! 1%N) = 9.
Proof. split; [done|]. eexists. split; by vm_compute. Qed.

Lemma set_stream_sync_then_assign_witness :
  (log (final (set_stream (ok_runtime true false) 1%N 9 shared_world))
   = [StreamSynchronize 5]
   ∧ stream (objs (final (set_stream (ok_runtime true false) 1%N 9 shared_world))
               !!! 1%N) = 9)
  ∧ (log (final (set_stream stuck_runtime 1%N 9 shared_world))
     = [StreamSynchronize 5]
     ∧ objs (final (set_stream stuck_runtime 1%N 9 shared_world))
       = objs shared_world)
  ∧ log (final (set_stream (ok_runtime false false) 1%N 9 shared_world)) = [].
Proof.
  split; [|split].
  - destruct (set_stream_sync_then_assign (T:=Z) (ok_runtime true false) 1%N 9
                shared_world) as [Hgpu _].
    destruct Hgpu as (Hlog & Hok & _); [done|].
    split; [exact Hlog|]. by apply Hok.
  - destruct (set_stream_sync_then_assign (T:=Z) stuck_runtime 1%N 9
                shared_world) as [Hgpu _].
    destruct Hgpu as (Hlog & _ & Hfail); [done|].
    split; [exact Hlog|]. by apply Hfail.
  - destruct (set_stream_sync_then_assign (T:=Z) (ok_runtime false false) 1%N 9
                shared_world) as [_ Hcpu].
    by destruct Hcpu as (_ & Hlog & _).
Defined.

(** Moving a host buffer of two elements to the device leaves the source
    with its two elements and its pointer. *)
Lemma Buffer_move_to_keeps_source :
  mem_type (objs apart_world !!! 1%N) = HostMemory
  ∧ ∃ b' w', Buffer_move_to (ok_runtime true false) 1%N DeviceMemory apart_world
             = Ret b' w'
             ∧ mem_type b' = DeviceMemory
             ∧ size (objs w' !!! 1%N) = 2
             ∧ data (objs w' !!! 1%N) = 30.
Proof. split; [done|]. eexists _, _. split; by vm_compute. Qed.

Lemma Buffer_move_to_effect_witness :
  (∃ w', Buffer_move_to (ok_runtime true false) 1%N HostMemory apart_world
         = Ret (objs apart_world !!! 1%N) w')
  ∧ ∃ b' w', Buffer_move_to (ok_runtime true false) 1%N DeviceMemory apart_world
             = Ret b' w'
             ∧ contents w' b' = contents apart_world (objs apart_world !!! 1%N)
             ∧ objs w' = objs apart_world.
Proof.
  destruct (Buffer_move_to_effect (T:=Z) (ok_runtime true false) 1%N HostMemory
              apart_world) as [Hsame _].
  destruct (Buffer_move_to_effect (T:=Z) (ok_runtime true false) 1%N DeviceMemory
              apart_world) as [_ Hother].
  split.
  - eexists. by apply Hsame.
  - destruct Hother as [Hpost Hruns]; [done|].
    destruct Hruns as (b' & w' & Hret); [done | by right |].
    exists b', w'. split; [done|].
    by destruct (Hpost b' w' Hret) as (_ & _ & _ & _ & _ & ? & ? & _).
Defined.

Lemma device_request_rejected_in_cpu_build_witness :
  IS_GPU_BUILD (ok_runtime false true) = false
  ∧ ∃ e, Buffer_sized (ok_runtime false true) 4 DeviceMemory 0 0 apart_world
         = Throw e apart_world
         ∧ Buffer_copy_to (ok_runtime false true) 1%N DeviceMemory 0 apart_world
           = Throw e apart_world.
Proof.
  split; [done|].
  destruct (device_request_rejected_in_cpu_build (T:=Z) (ok_runtime false true)
              apart_world) as (Hsized & Hcopy & _); [done|].
  eexists. split; [apply Hsized | apply Hcopy].
Defined.

Lemma Buffer_copy_ctor_deep_witness :
  data (objs apart_world !!! 1%N) + size (objs apart_world !!! 1%N)
    ≤ host_brk apart_world
  ∧ ∃ b' w', Buffer_copy_ctor (ok_runtime true false) 1%N apart_world = Ret b' w'
             ∧ data b' ≠ data (objs apart_world !!! 1%N)
             ∧ contents w' b' = contents apart_world (objs apart_world !!! 1%N).
Proof.
  split; [by vm_compute|].
  destruct (Buffer_copy_ctor_deep (T:=Z) (ok_runtime true false) 1%N apart_world)
    as [Hpost Hruns]; [by vm_compute | by vm_compute |].
  destruct Hruns as (b' & w' & Hret); [done | by left |].
  exists b', w'. split; [done|].
  by destruct (Hpost b' w' Hret) as (_ & _ & _ & _ & _ & ? & ? & _).
Defined.

Lemma Buffer_sized_reports_witness :
  ∃ b w', Buffer_sized (ok_runtime true false) 3 DeviceMemory 2 7 apart_world
          = Ret b w'
          ∧ size b = 3 ∧ mem_type b = DeviceMemory.
Proof.
  destruct (Buffer_sized_reports (T:=Z) (ok_runtime true false) 3 DeviceMemory
              2 7 apart_world) as [Hpost Hruns].
  destruct Hruns as (b & w' & Hret); [done | by right |].
  exists b, w'. split; [done|].
  by destruct (Hpost b w' Hret) as (? & ? & _).
Defined.

(** ** The transfer itself *)

Section Transfer.
Context {T : Type} `{!Inhabited T}.
Implicit Types (env : Env) (w : world T) (b : Buffer) (t : MemoryType).
Implicit Types (dst src : ref) (db sb se : size_type).

Lemma runtime_ok_all gpu alt : runtime_ok (ok_runtime gpu alt).
Proof. by intros l c. Qed.

(** When nothing fails, the reconciliation returns with [dst] on the stream
    of [src] and nothing else changed. *)
Lemma reconcile_ok env dst src w :
  let d := objs w !!! dst in
  let s := objs w !!! src in
  runtime_ok env →
  ∃ w1, reconcile env dst src w = Ret () w1
        ∧ heap w1 = heap w
        ∧ objs w1 !!! src = s
        ∧ objs w1 !!! dst = with_stream (stream s) d
        ∧ ∀ r, r ≠ dst → objs w1 !!! r = objs w !!! r.
Proof.
  intros d s Hok.
  destruct (reconcile_cases env dst src w)
    as [(Heq & ->) | [(Hne & Hcpu & ->) | [(Hne & Hgpu & _ & ->)
                                          | (_ & _ & Hfail & _)]]];
    fold d s in Heq || fold d s in Hne || idtac.
  - exists w. do 3 (split; [done|]). split; [|done].
    rewrite <- Heq. symmetry. apply with_stream_same.
  - pose proof (streams_differ_refs_differ w dst src Hne) as Hrefs.
    eexists. split; [done|]. split; [done|].
    rewrite adopted_dst, adopted_other by done. do 2 (split; [done|]).
    intros r Hr. by apply adopted_other.
  - pose proof (streams_differ_refs_differ w dst src Hne) as Hrefs.
    eexists. split; [done|]. split; [done|].
    rewrite adopted_dst, adopted_other by done. do 2 (split; [done|]).
    intros r Hr. by rewrite adopted_other.
  - by rewrite Hok in Hfail.
Qed.

Lemma range_check_passes (dn sn : size_type) db sb se :
  se ≤ sn →
  to_size_type (se - sb) ≤ to_size_type (dn - db) →
  (to_size_type (se - sb) <? 0) || (sn <? se)
    || (to_size_type (dn - db) <? to_size_type (se - sb)) = false.
Proof.
  intros Hs Hd. pose proof (to_size_type_range (se - sb)).
  repeat (apply orb_false_iff; split); apply Z.ltb_ge; lia.
Qed.

Lemma detail_copy_ok env (d s : ptr) (len : size_type) st dt stt w :
  runtime_ok env → ∃ w', detail_copy env d s len st dt stt w = Ret () w'.
Proof.
  intros Hok. unfold detail_copy. destruct (decide (len = 0)); run; [eauto|].
  rewrite Hok. run. eauto.
Qed.

(** The copy in the terms of the code: when the range test passes, the
    spans do not meet and nothing fails, [len] elements go from
    [src.data() + src_begin] to [dst.data() + dst_begin]. *)
Lemma copy_transfers env dst src db sb se w :
  let d := objs w !!! dst in
  let s := objs w !!! src in
  let len := to_size_type (se - sb) in
  runtime_ok env →
  se ≤ size s →
  len ≤ to_size_type (size d - db) →
  mem_type d ≠ mem_type s ∨ data d + db + len ≤ data s + sb
    ∨ data s + sb + len ≤ data d + db →
  ∃ w', copy env dst src db sb se w = Ret () w'
        ∧ (∀ i, 0 ≤ i < len →
                load (mem_type d) (data d + db + i) w'
                = load (mem_type s) (data s + sb + i) w)
        ∧ (∀ t q, outside (mem_type d) (data d + db) (Z.to_nat len) t q →
                  load t q w' = load t q w)
        ∧ objs w' !!! dst = with_stream (stream s) d
        ∧ ∀ r, r ≠ dst → objs w' !!! r = objs w !!! r.
Proof.
  intros d s len Hok Hs Hd Hsep.
  destruct (reconcile_ok env dst src w Hok) as (w1 & Hr & Hheap & Hsrc & Hdst & Hoth).
  fold d s in Hsrc, Hdst.
  rewrite copy_unfold, Hr. cbv beta iota zeta. rewrite Hsrc, Hdst.
  change (size (with_stream (stream s) d)) with (size d).
  change (data (with_stream (stream s) d)) with (data d).
  change (mem_type (with_stream (stream s) d)) with (mem_type d).
  rewrite range_check_passes by done. fold len.
  pose proof (to_size_type_range (se - sb)) as Hlen. fold len in Hlen.
  match goal with
  | |- context [detail_copy ?e ?a ?c ?l ?st ?dt ?stt ?w0] =>
      destruct (detail_copy_ok e a c l st dt stt w0 Hok) as (w' & Hc);
      pose proof (detail_copy_effect e a c l st dt stt w0) as (Ho & Hf & _)
  end.
  rewrite Hc in Ho, Hf. simpl in Ho, Hf.
  exists w'. split; [done|]. split; [|split; [|split]].
  - intros i Hi. rewrite <- !Z.add_assoc, !Z.add_assoc.
    rewrite (detail_copy_result _ _ _ _ _ _ _ _ _ Hc); [unfold load; by rewrite Hheap| |done].
    intros j Hj. unfold outside. rewrite Z2Nat.id by lia.
    destruct Hsep as [? | [? | ?]]; [by left | right; right; lia | right; left; lia].
  - intros t q Hout. rewrite Hf by done. unfold load. by rewrite Hheap.
  - by rewrite Ho.
  - intros r Hr'. rewrite Ho. by apply Hoth.
Qed.
End Transfer.

Section CopyOutcomes.
Context {T : Type} `{!Inhabited T}.
Implicit Types (env : Env) (w : world T) (b : Buffer) (t : MemoryType).
Implicit Types (dst src : ref) (db sb se : size_type).

Lemma copy_accepts env dst src db sb se w :
  let d := objs w !!! dst in
  let s := objs w !!! src in
  runtime_ok env →
  se ≤ size s →
  to_size_type (se - sb) ≤ to_size_type (size d - db) →
  ∃ w', copy env dst src db sb se w = Ret () w'.
Proof.
  intros d s Hok Hs Hd.
  destruct (reconcile_ok env dst src w Hok) as (w1 & Hr & _ & Hsrc & Hdst & _).
  fold d s in Hsrc, Hdst.
  rewrite copy_unfold, Hr. cbv beta iota zeta. rewrite Hsrc, Hdst.
  change (size (with_stream (stream s) d)) with (size d).
  rewrite range_check_passes by done.
  by apply detail_copy_ok.
Qed.

Lemma copy_refuses env dst src db sb se w :
  let d := objs w !!! dst in
  let s := objs w !!! src in
  runtime_ok env →
  size s < se ∨ to_size_type (size d - db) < to_size_type (se - sb) →
  ∃ w', copy env dst src db sb se w
        = Throw (TritonException Internal "bad copy between buffers") w'
        ∧ heap w' = heap w.
Proof.
  intros d s Hok Hbad.
  destruct (reconcile_ok env dst src w Hok) as (w1 & Hr & Hheap & Hsrc & Hdst & _).
  fold d s in Hsrc, Hdst.
  rewrite copy_unfold, Hr. cbv beta iota zeta. rewrite Hsrc, Hdst.
  change (size (with_stream (stream s) d)) with (size d).
  replace (_ || _ || _) with true; [by exists w1|].
  symmetry. destruct Hbad as [H | H]; apply Z.ltb_lt in H; rewrite H;
    by rewrite ?orb_true_r.
Qed.

Lemma detail_copy_log env (d s : ptr) (len : size_type) st dt stt w :
  let o := detail_copy env d s len st dt stt w in
  log (final o) = log w ∨ log (final o) = log w ++ [RawCopy d s len st dt stt].
Proof.
  unfold detail_copy. destruct (decide (len = 0)); run; [by left|]. right.
  case_status; run.
  - by destruct (copy_elements_same_frame (Z.to_nat len) dt stt d s
                   (with_log (RawCopy d s len st dt stt) w))
      as (_ & _ & _ & _ & ->).
  - by destruct (clobber_same_frame (Z.to_nat len) dt d
                   (with_log (RawCopy d s len st dt stt) w))
      as (_ & _ & _ & _ & ->).
Qed.

(** X1: a range that lies within the source and fits the destination
    behind [dst_begin] is copied: the elements [src_begin, src_end) of the
    source land at [dst_begin] in the destination, the elements of the
    destination before and after them keep their values, and the
    destination ends on the stream of the source. The spans must not
    overlap and the runtime must refuse nothing. *)
Theorem copy_copies_range env dst src db sb se w :
  let d := objs w !!! dst in
  let s := objs w !!! src in
  runtime_ok env →
  in_size_type db → in_size_type sb → in_size_type se → in_size_type (size d) →
  sb ≤ se → se ≤ size s → db + (se - sb) ≤ size d →
  mem_type d ≠ mem_type s ∨ data d + db + (se - sb) ≤ data s + sb
    ∨ data s + se ≤ data d + db →
  ∃ w', copy env dst src db sb se w = Ret () w'
        ∧ cells w' (mem_type d) (data d + db) (se - sb)
          = cells w (mem_type s) (data s + sb) (se - sb)
        ∧ cells w' (mem_type d) (data d) db = cells w (mem_type d) (data d) db
        ∧ cells w' (mem_type d) (data d + db + (se - sb)) (size d - db - (se - sb))
          = cells w (mem_type d) (data d + db + (se - sb)) (size d - db - (se - sb))
        ∧ mem_type (objs w' !!! dst) = mem_type d
        ∧ data (objs w' !!! dst) = data d
        ∧ size (objs w' !!! dst) = size d
        ∧ stream (objs w' !!! dst) = stream s.
Proof.
  intros d s. unfold in_size_type. intros Hok Hdb Hsb Hse Hdn Hord Hs Hfit Hsep.
  assert (to_size_type (se - sb) = se - sb) as Hlen
    by (apply to_size_type_small; lia).
  assert (to_size_type (size d - db) = size d - db) as Hroom
    by (apply to_size_type_small; lia).
  destruct (copy_transfers env dst src db sb se w Hok)
    as (w' & Hc & Hcopy & Hfr & Hd' & _);
    [done | fold d; lia
    | fold d s; rewrite Hlen; destruct Hsep as [?|[?|?]]; auto; right; right; lia |].
  fold d s in Hcopy, Hfr, Hd'. rewrite Hlen in Hcopy, Hfr.
  exists w'. split; [done|]. rewrite Hd'.
  split; [by apply cells_ext|]. split; [|split; [|done]].
  - apply cells_ext. intros i Hi. apply Hfr. right; left. lia.
  - apply cells_ext. intros i Hi. apply Hfr. right; right. lia.
Qed.

(** X2: a destination offset past the end of the destination is not
    refused. When [dst] views the head of a larger buffer [whole] and the
    range fits [whole], [copy] with [dst_begin] beyond [dst.size()]
    returns: the unsigned difference [dst.size() - dst_begin] wraps and
    the test passes. The elements of the source land in [whole] at offset
    [off], past the elements [dst] covers, and the contents of [dst]
    itself are as they were. *)
Theorem copy_accepts_offset_past_end env dst src (whole : ref) db sb se w :
  let d := objs w !!! dst in
  let s := objs w !!! src in
  let e := objs w !!! whole in
  let off := data d - data e + db in
  runtime_ok env →
  in_size_type db → in_size_type sb → in_size_type se →
  in_size_type (size d) → in_size_type (size e) →
  sb ≤ se → se ≤ size s →
  size d < db →
  mem_type e = mem_type d → data e ≤ data d → off + (se - sb) ≤ size e →
  mem_type d ≠ mem_type s ∨ data d + db + (se - sb) ≤ data s + sb
    ∨ data s + se ≤ data d + db →
  ∃ w', copy env dst src db sb se w = Ret () w'
        ∧ cells w' (mem_type e) (data e + off) (se - sb)
          = cells w (mem_type s) (data s + sb) (se - sb)
        ∧ contents w' (objs w' !!! dst) = contents w d.
Proof.
  intros d s e off. unfold in_size_type.
  intros Hok Hdb Hsb Hse Hdn Hen Hord Hs Hpast Hmt Hbase Hfit Hsep.
  assert (to_size_type (se - sb) = se - sb) as Hlen
    by (apply to_size_type_small; lia).
  assert (to_size_type (size d - db) = 2 ^ size_bits + (size d - db)) as Hroom.
  { unfold to_size_type. symmetry. apply (Z.mod_unique _ _ (-1)); lia. }
  destruct (copy_transfers env dst src db sb se w Hok)
    as (w' & Hc & Hcopy & Hfr & Hd' & _);
    [done | fold d; subst off; lia
    | fold d s; rewrite Hlen; destruct Hsep as [?|[?|?]]; auto; right; right; lia |].
  fold d s in Hcopy, Hfr, Hd'. rewrite Hlen in Hcopy, Hfr.
  exists w'. split; [done|]. split.
  - rewrite Hmt. replace (data e + off) with (data d + db) by (subst off; lia).
    by apply cells_ext.
  - rewrite Hd'. unfold contents.
    change (size (with_stream (stream s) d)) with (size d).
    change (data (with_stream (stream s) d)) with (data d).
    change (mem_type (with_stream (stream s) d)) with (mem_type d).
    apply cells_ext. intros i Hi. apply Hfr. right; left. lia.
Qed.

(** X3: [copy(dst, src, dst_begin)] with an offset within the destination
    returns exactly when the whole source fits behind the offset, and
    otherwise throws the range error with no cell written;
    [copy(dst, src)] is the case of offset 0. *)
Theorem copy_at_fits_or_throws env dst src db w :
  let d := objs w !!! dst in
  let s := objs w !!! src in
  runtime_ok env →
  in_size_type db → in_size_type (size d) → in_size_type (size s) →
  db ≤ size d →
  (db + size s ≤ size d → ∃ w', copy_at env dst src db w = Ret () w')
  ∧ (size d < db + size s →
     ∃ w', copy_at env dst src db w
           = Throw (TritonException Internal "bad copy between buffers") w'
           ∧ heap w' = heap w)
  ∧ copy_all env dst src w = copy_at env dst src 0 w.
Proof.
  intros d s. unfold in_size_type. intros Hok Hdb Hdn Hsn Hin.
  rewrite copy_at_unfold. fold s.
  assert (to_size_type (0 + size s) = size s) as Hn
    by (apply to_size_type_small; lia).
  assert (to_size_type (size s - 0) = size s) as Hlen
    by (rewrite Z.sub_0_r; apply to_size_type_small; lia).
  assert (to_size_type (size d - db) = size d - db) as Hroom
    by (apply to_size_type_small; lia).
  rewrite Hn. split; [|split; [|done]].
  - intros Hfit. apply copy_accepts; [done | fold s; lia | fold d; lia].
  - intros Hbig. apply copy_refuses; [done|]. right. fold d. lia.
Qed.

(** X4: when the two buffers are on the same stream at entry, [copy]
    synchronises no stream and leaves every buffer object as it was,
    whatever its outcome. *)
Theorem copy_same_stream_no_sync env dst src db sb se w :
  let o := copy env dst src db sb se w in
  stream (objs w !!! dst) = stream (objs w !!! src) →
  objs (final o) = objs w
  ∧ cuda_device (final o) = cuda_device w
  ∧ ∀ x, StreamSynchronize x ∈ log (final o) → StreamSynchronize x ∈ log w.
Proof.
  intros o Heq. subst o. rewrite copy_unfold.
  destruct (reconcile_cases env dst src w)
    as [(_ & ->) | [(Hne & _) | [(Hne & _) | (Hne & _)]]]; try done.
  cbv beta iota zeta. destruct (_ || _); [done|].
  match goal with
  | |- context [detail_copy ?e ?a ?c ?l ?st ?dt ?stt ?w0] =>
      pose proof (detail_copy_effect e a c l st dt stt w0) as (Ho & _ & _);
      pose proof (detail_copy_log e a c l st dt stt w0) as Hlog;
      assert (cuda_device (final (detail_copy e a c l st dt stt w0)) = cuda_device w0)
        as Hdev
  end.
  { unfold detail_copy. destruct (decide _); run; [done|]. case_status; run.
    - by match goal with
         | |- cuda_device (copy_elements ?n ?dt ?st ?d ?s ?w0) = _ =>
             destruct (copy_elements_same_frame n dt st d s w0) as (_ & _ & -> & _)
         end.
    - by match goal with
         | |- cuda_device (clobber ?n ?dt ?d ?w0) = _ =>
             destruct (clobber_same_frame n dt d w0) as (_ & _ & -> & _)
         end. }
  cbv zeta in Hlog. split; [done|]. split; [done|].
  intros x Hx. destruct Hlog as [Hl | Hl]; rewrite Hl in Hx; [done|].
  apply elem_of_app in Hx as [? | Hx]; [done|].
  by apply list_elem_of_singleton in Hx.
Qed.

(** X5: a [copy] that returns leaves the destination on the stream of the
    source, with the source object untouched. *)
Theorem copy_returns_on_one_stream env dst src db sb se w w' :
  copy env dst src db sb se w = Ret () w' →
  stream (objs w' !!! dst) = stream (objs w' !!! src)
  ∧ objs w' !!! src = objs w !!! src.
Proof.
  rewrite copy_unfold. intros H.
  assert (∃ w1, objs w' = objs w1
                ∧ objs w1 !!! src = objs w !!! src
                ∧ stream (objs w1 !!! dst) = stream (objs w !!! src))
    as (w1 & -> & Hsrc & Hdst); [|by rewrite Hsrc].
  destruct (reconcile_cases env dst src w)
    as [(Heq & Hr) | [(Hne & _ & Hr) | [(Hne & _ & _ & Hr) | (_ & _ & _ & Hr)]]];
    rewrite Hr in H; cbv beta iota zeta in H; [| | |done];
    (destruct (_ || _); [done|]);
    match type of H with
    | detail_copy ?e ?a ?c ?l ?st ?dt ?stt ?w0 = _ =>
        pose proof (detail_copy_effect e a c l st dt stt w0) as (Ho & _ & _);
        rewrite H in Ho; simpl in Ho; exists w0
    end;
    (split; [done|]).
  - done.
  - pose proof (streams_differ_refs_differ w dst src Hne).
    rewrite adopted_dst, adopted_other by done. split; [done|].
    apply with_stream_fields.
  - pose proof (streams_differ_refs_differ w dst src Hne).
    rewrite adopted_dst, adopted_other by done. split; [done|].
    apply with_stream_fields.
Qed.
End CopyOutcomes.

Section Relay.
Context {T : Type} `{!Inhabited T}.
Implicit Types (env : Env) (w : world T) (b : Buffer) (t : MemoryType).
Implicit Types (dst src : ref).

(** [copy(dst, src)] of a source that fits: the destination starts with
    the elements of the source. *)
Lemma copy_all_copies env dst src w :
  let d := objs w !!! dst in
  let s := objs w !!! src in
  runtime_ok env →
  in_size_type (size s) → in_size_type (size d) → size s ≤ size d →
  mem_type d ≠ mem_type s ∨ data d + size s ≤ data s ∨ data s + size s ≤ data d →
  ∃ w', copy_all env dst src w = Ret () w'
        ∧ (∀ i, 0 ≤ i < size s →
                load (mem_type d) (data d + i) w' = load (mem_type s) (data s + i) w)
        ∧ objs w' !!! dst = with_stream (stream s) d
        ∧ ∀ r, r ≠ dst → objs w' !!! r = objs w !!! r.
Proof.
  intros d s. unfold in_size_type. intros Hok Hsn Hdn Hfit Hsep.
  rewrite copy_all_unfold. fold s.
  assert (to_size_type (0 + size s) = size s) as Hn
    by (apply to_size_type_small; lia).
  assert (to_size_type (size s - 0) = size s) as Hlen
    by (rewrite Z.sub_0_r; apply to_size_type_small; lia).
  assert (to_size_type (size d - 0) = size d) as Hroom
    by (rewrite Z.sub_0_r; apply to_size_type_small; lia).
  rewrite Hn.
  destruct (copy_transfers env dst src 0 0 (size s) w Hok)
    as (w' & Hc & Hcopy & _ & Hd' & Hoth);
    [done | fold d s; lia | fold d s; rewrite Hlen, !Z.add_0_r; done |].
  fold d s in Hcopy, Hd'. rewrite Hlen in Hcopy.
  exists w'. split; [done|]. split; [|done].
  intros i Hi. specialize (Hcopy i Hi). by rewrite !Z.add_0_r in Hcopy.
Qed.

(** X6: relaying through a middle buffer. [copy(mid, src)] followed by
    [copy(dst, mid)], between three buffers of one size whose storage does
    not overlap pairwise along the way, leaves the destination with the
    contents the source had at the start, on the stream of the source. *)
Theorem copy_all_relay env (ra rb rc : ref) w :
  let a := objs w !!! ra in
  let b := objs w !!! rb in
  let c := objs w !!! rc in
  runtime_ok env →
  rb ≠ rc →
  in_size_type (size a) → size b = size a → size c = size a →
  mem_type b ≠ mem_type a ∨ data b + size a ≤ data a ∨ data a + size a ≤ data b →
  mem_type c ≠ mem_type b ∨ data c + size a ≤ data b ∨ data b + size a ≤ data c →
  ∃ w1 w2,
    copy_all env rb ra w = Ret () w1
    ∧ copy_all env rc rb w1 = Ret () w2
    ∧ contents w2 (objs w2 !!! rc) = contents w a
    ∧ stream (objs w2 !!! rc) = stream a.
Proof.
  intros a b c Hok Hbc Hn Hb Hc Hab Hbc'.
  destruct (copy_all_copies env rb ra w Hok) as (w1 & H1 & Hload1 & Hb1 & Hoth1);
    fold a b; rewrite ?Hb; [done | done | lia | done |].
  fold a b in Hload1, Hb1.
  assert (objs w1 !!! rc = c) as Hc1 by (apply Hoth1; congruence).
  destruct (copy_all_copies env rc rb w1 Hok) as (w2 & H2 & Hload2 & Hc2 & _);
    rewrite ?Hb1, ?Hc1;
    change (size (with_stream (stream a) b)) with (size b);
    change (data (with_stream (stream a) b)) with (data b);
    change (mem_type (with_stream (stream a) b)) with (mem_type b);
    rewrite ?Hb, ?Hc; [done | done | lia | done |].
  rewrite Hb1, Hc1 in Hload2, Hc2.
  change (size (with_stream (stream a) b)) with (size b) in Hload2.
  change (data (with_stream (stream a) b)) with (data b) in Hload2.
  change (mem_type (with_stream (stream a) b)) with (mem_type b) in Hload2.
  exists w1, w2. split; [done|]. split; [done|]. rewrite Hc2. split; [|done].
  unfold contents.
  change (size (with_stream _ c)) with (size c).
  change (data (with_stream _ c)) with (data c).
  change (mem_type (with_stream _ c)) with (mem_type c).
  rewrite Hc. apply cells_ext. intros i Hi.
  rewrite Hload2 by lia. apply Hload1. lia.
Qed.
End Relay.

(** ** Allocation, ownership and release *)

Section Ownership.
Context {T : Type} `{!Inhabited T}.
Implicit Types (env : Env) (w : world T) (b : Buffer) (t : MemoryType).

Lemma fill_result n t (p : ptr) (v : T) w i :
  0 ≤ i < Z.of_nat n → load t (p + i) (fill n t p v w) = Some v.
Proof.
  revert p w i. induction n as [|n IH]; intros p w i Hi; [lia|]. simpl.
  destruct (decide (i = 0)) as [-> | Hi0].
  - rewrite Z.add_0_r, fill_frame by (right; lia).
    rewrite load_store. by destruct (decide _).
  - replace (p + i) with (p + 1 + (i - 1)) by lia. apply IH. lia.
Qed.

Lemma cells_const w t (p : ptr) (n : size_type) (v : option T) :
  (∀ i, 0 ≤ i < n → load t (p + i) w = v) →
  cells w t p n = replicate (Z.to_nat n) v.
Proof.
  intros Hv. unfold cells. apply list_eq. intros k.
  rewrite list_lookup_fmap.
  destruct (decide (k < Z.to_nat n)%nat) as [Hk | Hk].
  - rewrite lookup_seqZ_lt by lia. rewrite lookup_replicate_2 by done.
    simpl. f_equal. apply Hv. lia.
  - rewrite lookup_seqZ_ge by lia. simpl. symmetry.
    apply lookup_replicate_None. lia.
Qed.

(** X7: the sizing constructor on the host, in any build. It asks the host
    allocator alone; if that succeeds the buffer owns the block at the host
    break, its [n] elements are value initialised, and no cell handed out
    before is touched; if it fails, [std::bad_alloc] leaves with no block
    taken. *)
Theorem Buffer_sized_host env (n : size_type) (d : device_id_t) (s : cudaStream_t) w :
  let b := mkBuffer d (owned_h_ptr (host_brk w)) n s in
  let o := Buffer_sized env n HostMemory d s w in
  log (final o) = log w ++ [HostNew n]
  ∧ cuda_device (final o) = cuda_device w
  ∧ dev_brk (final o) = dev_brk w
  ∧ (status env (log w) (HostNew n) = cudaSuccess →
     o = Ret b (final o)
     ∧ contents (final o) b = replicate (Z.to_nat n) (Some inhabitant)
     ∧ host_brk (final o) = host_brk w + Z.max 1 n
     ∧ (∀ q, q < host_brk w → load HostMemory q (final o) = load HostMemory q w)
     ∧ (∀ q, load DeviceMemory q (final o) = load DeviceMemory q w))
  ∧ (status env (log w) (HostNew n) ≠ cudaSuccess →
     o = Throw bad_alloc (final o)
     ∧ heap (final o) = heap w ∧ host_brk (final o) = host_brk w).
Proof.
  intros b o. subst o b. unfold Buffer_sized, allocate, make_unique. run.
  case_status; run.
  - match goal with
    | |- context [fill ?k ?t ?p ?v ?w0] =>
        pose proof (fill_same_frame k t p v w0) as (Hh & Hd & Hc & _ & Hl);
        pose proof (λ t' q, fill_frame k t p v w0 t' q) as Hf;
        pose proof (λ i, fill_result k t p v w0 i) as Hr
    end.
    simpl in *. split; [done|]. split; [done|]. split; [done|].
    split; [|done]. intros _. split; [done|]. split; [|split; [done|split]].
    + unfold contents. apply cells_const. intros i Hi. apply Hr. lia.
    + intros q Hq. apply Hf. right; left. lia.
    + intros q. apply Hf. by left.
  - by repeat split.
Qed.

(** X8: the sizing constructor on the device, in a GPU build. The device
    is selected before anything is allocated: if the selection fails an
    Internal error leaves with the current device and the device break as
    they were; if the allocation fails after it, the device has changed
    but no block is taken; otherwise the buffer owns the block at the
    device break. The host side is never touched. *)
Theorem Buffer_sized_device env (n : size_type) (d : device_id_t) (s : cudaStream_t) w :
  let c1 := SetDevice d in
  let c2 := DevMalloc n in
  let o := Buffer_sized env n DeviceMemory d s w in
  IS_GPU_BUILD env = true →
  heap (final o) = heap w ∧ host_brk (final o) = host_brk w
  ∧ (status env (log w) c1 ≠ cudaSuccess →
     (∃ msg, o = Throw (TritonException Internal msg) (final o))
     ∧ log (final o) = log w ++ [c1]
     ∧ cuda_device (final o) = cuda_device w
     ∧ dev_brk (final o) = dev_brk w)
  ∧ (status env (log w) c1 = cudaSuccess →
     status env (log w ++ [c1]) c2 ≠ cudaSuccess →
     (∃ msg, o = Throw (TritonException Internal msg) (final o))
     ∧ log (final o) = log w ++ [c1; c2]
     ∧ cuda_device (final o) = d
     ∧ dev_brk (final o) = dev_brk w)
  ∧ (status env (log w) c1 = cudaSuccess →
     status env (log w ++ [c1]) c2 = cudaSuccess →
     o = Ret (mkBuffer d (owned_d_ptr (dev_brk w)) n s) (final o)
     ∧ log (final o) = log w ++ [c1; c2]
     ∧ cuda_device (final o) = d
     ∧ dev_brk (final o) = dev_brk w + Z.max 1 n).
Proof.
  intros c1 c2 o Hgpu. subst o c1 c2.
  unfold Buffer_sized, allocate, dev_allocate. rewrite Hgpu.
  destruct (decide (status env (log w) (SetDevice d) = cudaSuccess)) as [H1 | H1];
    [destruct (decide (status env (log w ++ [SetDevice d]) (DevMalloc n) = cudaSuccess))
       as [H2 | H2]|];
    repeat (run; first [rewrite decide_True by done | rewrite decide_False by done]);
    simpl.
  - split; [done|]. split; [done|]. split; [done|]. split; [done|].
    intros _ _. split; [done|]. split; [by rewrite <- app_assoc|]. done.
  - split; [done|]. split; [done|]. split; [done|]. split; [|done].
    intros _ _. split; [eauto|]. split; [by rewrite <- app_assoc|]. done.
  - split; [done|]. split; [done|]. split; [|done].
    intros _. split; [eauto|]. done.
Qed.

(** X9: the constructor that borrows a raw pointer reports the pointer,
    size, device and stream it was given, whatever placement is asked for,
    and the buffer it builds releases nothing when destroyed. *)
Theorem Buffer_borrowed_aliases env (p : ptr) (n : size_type) t
    (d : device_id_t) (s : cudaStream_t) :
  let b := Buffer_borrowed env p n t d s in
  data b = p ∧ size b = n ∧ device b = d ∧ stream b = s
  ∧ (index (data_ b) = 0 ∨ index (data_ b) = 1)
  ∧ Buffer_dtor_releases b = None.
Proof.
  intros b. subst b. unfold Buffer_borrowed, data, Buffer_dtor_releases. simpl.
  destruct (raw_is_device env); simpl; repeat split; auto.
Qed.

Lemma moved_from_releases_nothing b :
  Buffer_dtor_releases (with_data (moved_from (data_ b)) b) = None.
Proof. unfold Buffer_dtor_releases. by destruct (data_ b). Qed.

(** X10: a move hands the storage over. [Buffer(std::move(other))], and
    [Buffer(std::move(other), memory_type)] at the placement [other]
    already has, return the same buffer: the one [other] was. They make no
    runtime call and write no cell. Afterwards [other] releases nothing
    when destroyed, so no block is released twice; it still reports its
    old size and placement, with a null pointer if it owned the storage
    and its old pointer if it borrowed it. *)
Theorem move_hands_storage_over env (other : ref) w :
  let b := objs w !!! other in
  ∃ w',
    Buffer_move_ctor other w = Ret b w'
    ∧ Buffer_move_to env other (mem_type b) w = Ret b w'
    ∧ heap w' = heap w ∧ log w' = log w
    ∧ Buffer_dtor_releases (objs w' !!! other) = None
    ∧ size (objs w' !!! other) = size b
    ∧ mem_type (objs w' !!! other) = mem_type b
    ∧ (index (data_ b) < 2 → data (objs w' !!! other) = data b)
    ∧ (2 ≤ index (data_ b) → data (objs w' !!! other) = nullptr)
    ∧ ∀ r, r ≠ other → objs w' !!! r = objs w !!! r.
Proof.
  intros b.
  exists (with_objs (λ o, <[other := with_data (moved_from (data_ b)) b]> o) w).
  split; [|split].
  - unfold Buffer_move_ctor. run. rewrite lookup_total_insert_eq. fold b.
    match goal with
    | |- Ret ?r _ = _ => replace r with b by (symmetry; exact (Buffer_eta b))
    end.
    done.
  - unfold Buffer_move_to. run. fold b.
    destruct (decide _) as [_ | Hne]; [|done]. run.
    rewrite lookup_total_insert_eq. fold b.
    match goal with
    | |- Ret ?r _ = _ => replace r with b by (symmetry; exact (Buffer_eta b))
    end.
    done.
  - simpl. rewrite lookup_total_insert_eq.
    split; [done|]. split; [done|].
    split; [apply moved_from_releases_nothing|]. split; [done|].
    split; [unfold mem_type; simpl; rewrite !placement_of_cases; by destruct (data_ b)|].
    split; [|split].
    + unfold data. simpl. destruct (data_ b); simpl; intros; done || lia.
    + unfold data. simpl. destruct (data_ b); simpl; intros; done || lia.
    + intros r Hr. by rewrite lookup_total_insert_ne.
Qed.
End Ownership.

Section Copies.
Context {T : Type} `{!Inhabited T}.
Implicit Types (env : Env) (w : world T) (b : Buffer) (t : MemoryType).

(** X11: [Buffer(other, memory_type, device)] into the placement [other]
    is not in. A buffer it returns is owning, in [memory_type], on
    [device], at the break of that placement, with the size and stream of
    [other] and the same elements; [other] and its contents are as they
    were. It returns whenever the runtime refuses nothing and the placement
    is available in the build. *)
Theorem Buffer_copy_to_relocates env (other : ref) t (dev : device_id_t) w :
  let b := objs w !!! other in
  t ≠ mem_type b →
  (∀ b' w', Buffer_copy_to env other t dev w = Ret b' w' →
     mem_type b' = t ∧ device b' = dev
     ∧ size b' = size b ∧ stream b' = stream b
     ∧ data b' = brk t w
     ∧ (index (data_ b') = 2 ∨ index (data_ b') = 3)
     ∧ contents w' b' = contents w b
     ∧ objs w' = objs w
     ∧ contents w' b = contents w b)
  ∧ (runtime_ok env → t = HostMemory ∨ IS_GPU_BUILD env = true →
     ∃ b' w', Buffer_copy_to env other t dev w = Ret b' w').
Proof.
  intros b Hne. split; [|by apply Buffer_copy_to_ok].
  intros b' w' H.
  apply Buffer_copy_to_effect in H as (-> & Ho & Hc & Hs); [|by left].
  fold b in Hc, Hs. fold b.
  unfold mem_type at 1, data at 1. simpl.
  replace (placement_of (owned t (brk t w))) with t by by destruct t.
  replace (get_raw_ptr (owned t (brk t w))) with (brk t w) by by destruct t.
  do 5 (split; [done|]). split; [destruct t; simpl; auto|]. done.
Qed.

Lemma allocate_objs env (d : device_id_t) (n : size_type) t w :
  objs (final (allocate env d n t w)) = objs w.
Proof.
  unfold allocate, make_unique, dev_allocate. run.
  destruct (decide (t = DeviceMemory)) as [-> | Ht].
  - destruct (IS_GPU_BUILD env); [|done].
    repeat (case_status; run; try done).
  - case_status; run; [|done].
    by match goal with
       | |- objs (fill ?k ?t0 ?p ?v ?w0) = _ =>
           destruct (fill_same_frame k t0 p v w0) as (_ & _ & _ & -> & _)
       end.
Qed.

(** A buffer that [Buffer(other, memory_type, device)] returns, and the
    store it leaves. *)
Lemma Buffer_copy_to_shape env (other : ref) t (dev : device_id_t) w b' w' :
  let b := objs w !!! other in
  Buffer_copy_to env other t dev w = Ret b' w' →
  b' = {| device_ := dev; data_ := owned t (brk t w);
          size_ := size b; stream_ := stream b |}
  ∧ objs w' = objs w.
Proof.
  intros b H. unfold Buffer_copy_to in H. run.
  destruct (allocate _ _ _ _ _) as [v w2|] eqn:Ha; [|done].
  apply allocate_effect in Ha as (-> & Ho2 & _).
  rewrite Ho2 in H.
  destruct (Buffer_copy _ _ _ _ _ _) as [[] w3|] eqn:Hc; [|done].
  unfold Buffer_copy in Hc. cbv zeta in Hc.
  match type of Hc with
  | detail_copy ?e ?a ?c ?l ?st ?dt ?stt ?w0 = _ =>
      pose proof (detail_copy_effect e a c l st dt stt w0) as (Ho3 & _ & _)
  end.
  rewrite Hc in Ho3. simpl in Ho3. rewrite Ho3, Ho2 in H.
  injection H as <- <-. split; [done|]. congruence.
Qed.

(** X12: a copy owns a block of its own. A buffer that
    [Buffer(other, memory_type, device)] returns releases, when destroyed,
    the block at the break of its placement, and [other] releases what it
    did before: the two never release the same block, provided the break
    is past the null address and, within one placement, past the pointer
    of [other]. *)
Theorem Buffer_copy_to_owns_fresh_block env (other : ref) t (dev : device_id_t)
    w b' w' :
  let b := objs w !!! other in
  Buffer_copy_to env other t dev w = Ret b' w' →
  0 < brk t w →
  t ≠ mem_type b ∨ data b < brk t w →
  Buffer_dtor_releases b' = Some (t, brk t w)
  ∧ Buffer_dtor_releases (objs w' !!! other) = Buffer_dtor_releases b
  ∧ Buffer_dtor_releases b' ≠ Buffer_dtor_releases (objs w' !!! other).
Proof.
  intros b H Hpos Hsep.
  apply Buffer_copy_to_shape in H as (-> & ->). fold b.
  assert (Buffer_dtor_releases
            {| device_ := dev; data_ := owned t (brk t w);
               size_ := size b; stream_ := stream b |} = Some (t, brk t w)) as Hrel.
  { unfold Buffer_dtor_releases, nullptr. simpl.
    destruct t; simpl in *; destruct (decide _); done || lia. }
  rewrite Hrel. split; [done|]. split; [done|].
  intros Heq. symmetry in Heq. clearbody b.
  unfold Buffer_dtor_releases, mem_type, data in *.
  rewrite placement_of_cases in Hsep.
  clear Hrel.
  destruct (data_ b); simpl in *; try done;
    destruct (decide _); try done; injection Heq as Ht Hp; subst;
    destruct Hsep; done || lia.
Qed.

(** *** What no operation changes *)

Lemma same_shape_refl w w' : objs w' = objs w → same_shape w w'.
Proof. intros Ho r. by rewrite Ho. Qed.

Lemma same_shape_update w w' (r : ref) (f : Buffer → Buffer) :
  (∀ b, mem_type (f b) = mem_type b ∧ size (f b) = size b ∧ device (f b) = device b) →
  objs w' = <[r := f (objs w !!! r)]> (objs w) →
  same_shape w w'.
Proof.
  intros Hf Ho r'. rewrite Ho. destruct (decide (r = r')) as [<- | Hne].
  - rewrite lookup_total_insert_eq. apply Hf.
  - by rewrite lookup_total_insert_ne.
Qed.

Lemma with_stream_shape (s : cudaStream_t) b :
  mem_type (with_stream s b) = mem_type b ∧ size (with_stream s b) = size b
  ∧ device (with_stream s b) = device b.
Proof. done. Qed.

Lemma moved_from_shape b :
  mem_type (with_data (moved_from (data_ b)) b) = mem_type b
  ∧ size (with_data (moved_from (data_ b)) b) = size b
  ∧ device (with_data (moved_from (data_ b)) b) = device b.
Proof.
  split; [|done]. unfold mem_type. simpl. rewrite !placement_of_cases.
  by destruct (data_ b).
Qed.

Lemma Buffer_copy_objs env (v src : data_ptr) (n : size_type) (st : cudaStream_t) w :
  objs (final (Buffer_copy env v src n st w)) = objs w.
Proof.
  unfold Buffer_copy. cbv zeta.
  match goal with
  | |- context [detail_copy ?e ?a ?c ?l ?s0 ?dt ?stt ?w0] =>
      by pose proof (detail_copy_effect e a c l s0 dt stt w0) as (Ho & _ & _)
  end.
Qed.

Lemma Buffer_copy_to_objs env (other : ref) t (dev : device_id_t) w :
  objs (final (Buffer_copy_to env other t dev w)) = objs w.
Proof.
  unfold Buffer_copy_to. run.
  match goal with
  | |- context [allocate ?e ?d ?n ?t0 ?w0] =>
      pose proof (allocate_objs e d n t0 w0) as Ha;
      destruct (allocate e d n t0 w0) as [v w2 | e2 w2]; simpl in Ha; [|done]
  end.
  match goal with
  | |- context [Buffer_copy ?e ?a ?c ?n ?s0 ?w0] =>
      pose proof (Buffer_copy_objs e a c n s0 w0) as Hc;
      destruct (Buffer_copy e a c n s0 w0) as [[] w3 | e3 w3]; simpl in Hc
  end; congruence.
Qed.

Lemma Buffer_move_to_objs env (other : ref) t w :
  let b := objs w !!! other in
  objs (final (Buffer_move_to env other t w))
  = if decide (t = mem_type b)
    then <[other := with_data (moved_from (data_ b)) b]> (objs w)
    else objs w.
Proof.
  intros b. unfold Buffer_move_to. run. fold b.
  destruct (decide (t = mem_type b)) as [Heq | Hne]; run; [done|].
  match goal with
  | |- context [allocate ?e ?d ?n ?t0 ?w0] =>
      pose proof (allocate_objs e d n t0 w0) as Ha;
      destruct (allocate e d n t0 w0) as [v w2 | e2 w2]; simpl in Ha; [|done]
  end.
  match goal with
  | |- context [Buffer_copy ?e ?a ?c ?n ?s0 ?w0] =>
      pose proof (Buffer_copy_objs e a c n s0 w0) as Hc;
      destruct (Buffer_copy e a c n s0 w0) as [[] w3 | e3 w3]; simpl in Hc
  end; run; congruence.
Qed.

(** X13: placement, size and device are fixed at construction. Whatever
    their outcome, [set_stream], the copy between buffers, both move
    constructors and both copying constructors leave every buffer of the
    store with the [mem_type()], [size()] and [device()] it had. *)
Theorem operations_keep_shape env w :
  (∀ (this : ref) (s : cudaStream_t),
     same_shape w (final (set_stream env this s w)))
  ∧ (∀ (dst src : ref) (db sb se : size_type),
       same_shape w (final (copy env dst src db sb se w)))
  ∧ (∀ other : ref, same_shape w (final (Buffer_move_ctor other w)))
  ∧ (∀ (other : ref) t, same_shape w (final (Buffer_move_to env other t w)))
  ∧ (∀ (other : ref) t (dev : device_id_t),
       same_shape w (final (Buffer_copy_to env other t dev w)))
  ∧ (∀ other : ref, same_shape w (final (Buffer_copy_ctor env other w))).
Proof.
  split; [|split; [|split; [|split; [|split]]]].
  - intros this s. rewrite set_stream_unfold. cbv zeta.
    destruct (IS_GPU_BUILD env); [destruct (decide _)|]; simpl.
    + by apply (same_shape_update _ _ this (with_stream s)).
    + by apply same_shape_refl.
    + by apply (same_shape_update _ _ this (with_stream s)).
  - intros dst src db sb se. rewrite copy_unfold.
    assert (∃ w1, objs (final (reconcile env dst src w)) = objs w1
                  ∧ same_shape w w1
                  ∧ final (reconcile env dst src w) = w1) as (w1 & _ & Hs & Hw1).
    { eexists. split; [done|]. split; [|done].
      destruct (reconcile_cases env dst src w)
        as [(_ & ->) | [(_ & _ & ->) | [(_ & _ & _ & ->) | (_ & _ & _ & ->)]]];
        simpl.
      - by apply same_shape_refl.
      - by apply (same_shape_update _ _ dst
                    (with_stream (stream (objs w !!! src)))).
      - by apply (same_shape_update _ _ dst
                    (with_stream (stream (objs w !!! src)))).
      - by apply same_shape_refl. }
    destruct (reconcile env dst src w) as [[] w0 | e w0]; simpl in Hw1; subst w0;
      [|done].
    cbv zeta. destruct (_ || _); [done|].
    match goal with
    | |- context [detail_copy ?e ?a ?c ?l ?st ?dt ?stt ?w0] =>
        pose proof (detail_copy_effect e a c l st dt stt w0) as (Ho & _ & _)
    end.
    intros r. rewrite Ho. apply Hs.
  - intros other. unfold Buffer_move_ctor. run.
    apply (same_shape_update _ _ other (λ b, with_data (moved_from (data_ b)) b));
      [apply moved_from_shape | done].
  - intros other t. pose proof (Buffer_move_to_objs env other t w) as Ho.
    cbv zeta in Ho. destruct (decide _).
    + by apply (same_shape_update _ _ other
                  (λ b, with_data (moved_from (data_ b)) b));
        [apply moved_from_shape|].
    + by apply same_shape_refl.
  - intros other t dev. apply same_shape_refl, Buffer_copy_to_objs.
  - intros other. apply same_shape_refl.
    change (Buffer_copy_ctor env other w)
      with (Buffer_copy_to env other (mem_type (objs w !!! other))
              (device (objs w !!! other)) w).
    apply Buffer_copy_to_objs.
Qed.
End Copies.

Section StreamFrame.
Context {T : Type} `{!Inhabited T}.
Implicit Types (env : Env) (w : world T) (b : Buffer) (t : MemoryType).

(** X14: [set_stream] touches the stream of its buffer and nothing else.
    Whatever its outcome, no cell of the heap changes, no block is handed
    out, every other buffer object is as it was, and the buffer keeps its
    pointer and its contents. *)
Theorem set_stream_frame env (this : ref) (s : cudaStream_t) w :
  let o := set_stream env this s w in
  heap (final o) = heap w
  ∧ host_brk (final o) = host_brk w ∧ dev_brk (final o) = dev_brk w
  ∧ cuda_device (final o) = cuda_device w
  ∧ (∀ r, r ≠ this → objs (final o) !!! r = objs w !!! r)
  ∧ data_ (objs (final o) !!! this) = data_ (objs w !!! this)
  ∧ contents (final o) (objs (final o) !!! this) = contents w (objs w !!! this).
Proof.
  intros o. subst o. rewrite set_stream_unfold. cbv zeta.
  destruct (IS_GPU_BUILD env); [destruct (decide _)|]; simpl;
    rewrite ?lookup_total_insert_eq;
    do 4 (split; [done|]);
    (split; [intros r Hr; by rewrite ?lookup_total_insert_ne|]);
    (split; [done|]); by apply cells_same_heap.
Qed.
End StreamFrame.

(** ** Further runs *)

Lemma copy_copies_range_witness :
  ∃ w', copy (ok_runtime true false) 1%N 2%N 1 0 1 apart_world = Ret () w'
        ∧ cells w' HostMemory (30 + 1) (1 - 0)
          = cells apart_world HostMemory (10 + 0) (1 - 0)
        ∧ cells w' HostMemory 30 1 = cells apart_world HostMemory 30 1.
Proof.
  destruct (copy_copies_range (T:=Z) (ok_runtime true false) 1%N 2%N 1 0 1
              apart_world) as (w' & Hret & Hcopied & Hkept & _);
    [apply runtime_ok_all | by vm_compute | by vm_compute | by vm_compute
    | by vm_compute | by vm_compute | by vm_compute | by vm_compute
    | right; right; by vm_compute |].
  exists w'. split; [exact Hret|]. split; [exact Hcopied | exact Hkept].
Defined.

Lemma copy_accepts_offset_past_end_witness :
  size (objs view_world !!! 1%N) < 3
  ∧ contents view_world (objs view_world !!! 3%N)
    = [Some 1; Some 2; Some 3; Some 4]
  ∧ ∃ w', copy (ok_runtime true false) 1%N 2%N 3 0 1 view_world = Ret () w'
          ∧ cells w' HostMemory (10 + (10 - 10 + 3)) (1 - 0)
            = cells view_world HostMemory (30 + 0) (1 - 0)
          ∧ contents w' (objs w' !!! 1%N)
            = contents view_world (objs view_world !!! 1%N).
Proof.
  split; [by vm_compute|]. split; [by vm_compute|].
  destruct (copy_accepts_offset_past_end (T:=Z) (ok_runtime true false)
              1%N 2%N 3%N 3 0 1 view_world) as (w' & Hret & Hcopied & Hkept);
    [apply runtime_ok_all | by vm_compute | by vm_compute | by vm_compute
    | by vm_compute | by vm_compute | by vm_compute | by vm_compute
    | by vm_compute | by vm_compute | by vm_compute | by vm_compute
    | right; left; by vm_compute |].
  exists w'. split; [exact Hret|]. split; [exact Hcopied | exact Hkept].
Defined.

Lemma copy_at_fits_or_throws_witness :
  (∃ w', copy_at (ok_runtime true false) 1%N 2%N 0 apart_world = Ret () w')
  ∧ ∃ w', copy_at (ok_runtime true false) 1%N 2%N 1 apart_world
          = Throw (TritonException Internal "bad copy between buffers") w'.
Proof.
  split.
  - destruct (copy_at_fits_or_throws (T:=Z) (ok_runtime true false) 1%N 2%N 0
                apart_world) as (Hfits & _);
      [apply runtime_ok_all | by vm_compute | by vm_compute | by vm_compute
      | by vm_compute |].
    apply Hfits. by vm_compute.
  - destruct (copy_at_fits_or_throws (T:=Z) (ok_runtime true false) 1%N 2%N 1
                apart_world) as (_ & Hthrows & _);
      [apply runtime_ok_all | by vm_compute | by vm_compute | by vm_compute
      | by vm_compute |].
    destruct Hthrows as (w' & Hw' & _); [by vm_compute|]. by exists w'.
Defined.

Lemma copy_same_stream_no_sync_witness :
  stream (objs apart_world !!! 1%N) = stream (objs apart_world !!! 2%N)
  ∧ objs (final (copy (ok_runtime true false) 1%N 2%N 0 0 2 apart_world))
    = objs apart_world.
Proof.
  split; [by vm_compute|].
  destruct (copy_same_stream_no_sync (T:=Z) (ok_runtime true false) 1%N 2%N 0 0 2
              apart_world) as (Hobjs & _); [by vm_compute|].
  exact Hobjs.
Defined.

Lemma copy_returns_on_one_stream_witness :
  stream (objs shared_world !!! 1%N) ≠ stream (objs shared_world !!! 2%N)
  ∧ ∃ w', copy (ok_runtime true false) 1%N 2%N 0 1 2 shared_world = Ret () w'
          ∧ stream (objs w' !!! 1%N) = stream (objs w' !!! 2%N).
Proof.
  split; [by vm_compute|].
  destruct (copy (ok_runtime true false) 1%N 2%N 0 1 2 shared_world)
    as [[] w' | e w'] eqn:Hret; [|by vm_compute in Hret].
  exists w'. split; [done|].
  by destruct (copy_returns_on_one_stream (T:=Z) _ _ _ _ _ _ _ _ Hret).
Defined.

Lemma copy_all_relay_witness :
  ∃ w1 w2,
    copy_all (ok_runtime true false) 2%N 1%N relay_world = Ret () w1
    ∧ copy_all (ok_runtime true false) 3%N 2%N w1 = Ret () w2
    ∧ contents w2 (objs w2 !!! 3%N)
      = contents relay_world (objs relay_world !!! 1%N).
Proof.
  destruct (copy_all_relay (T:=Z) (ok_runtime true false) 1%N 2%N 3%N relay_world)
    as (w1 & w2 & H1 & H2 & Hsame & _);
    [apply runtime_ok_all | done | by vm_compute | by vm_compute | by vm_compute
    | left; by vm_compute | left; by vm_compute |].
  by exists w1, w2.
Defined.

Lemma Buffer_sized_host_witness :
  (∃ w', Buffer_sized (ok_runtime false false) 3 HostMemory 0 7 apart_world
         = Ret (mkBuffer 0 (owned_h_ptr 40) 3 7) w'
         ∧ contents w' (mkBuffer 0 (owned_h_ptr 40) 3 7)
           = replicate 3 (Some inhabitant))
  ∧ ∃ w', Buffer_sized starved_runtime 3 HostMemory 0 7 apart_world
          = Throw bad_alloc w'
          ∧ heap w' = heap apart_world.
Proof.
  split.
  - destruct (Buffer_sized_host (T:=Z) (ok_runtime false false) 3 0 7 apart_world)
      as (_ & _ & _ & Hok & _).
    destruct Hok as (Hret & Hinit & _); [done|].
    eexists. split; [exact Hret | exact Hinit].
  - destruct (Buffer_sized_host (T:=Z) starved_runtime 3 0 7 apart_world)
      as (_ & _ & _ & _ & Hfail).
    destruct Hfail as (Hthrow & Hheap & _); [done|].
    eexists. split; [exact Hthrow | exact Hheap].
Defined.

Lemma Buffer_sized_device_witness :
  (∃ w', Buffer_sized (ok_runtime true false) 3 DeviceMemory 2 7 apart_world
         = Ret (mkBuffer 2 (owned_d_ptr 1) 3 7) w'
         ∧ cuda_device w' = 2 ∧ dev_brk w' = 1 + 3)
  ∧ ∃ msg w', Buffer_sized starved_runtime 3 DeviceMemory 2 7 apart_world
              = Throw (TritonException Internal msg) w'
              ∧ cuda_device w' = 2 ∧ dev_brk w' = 1.
Proof.
  split.
  - destruct (Buffer_sized_device (T:=Z) (ok_runtime true false) 3 2 7 apart_world)
      as (_ & _ & _ & _ & Hok); [done|].
    destruct Hok as (Hret & _ & Hdev & Hbrk); [done | done |].
    eexists. split; [exact Hret|]. split; [exact Hdev | exact Hbrk].
  - destruct (Buffer_sized_device (T:=Z) starved_runtime 3 2 7 apart_world)
      as (_ & _ & _ & Hfail & _); [done|].
    destruct Hfail as ([msg Hthrow] & _ & Hdev & Hbrk); [done | done |].
    eexists _, _. split; [exact Hthrow|]. split; [exact Hdev | exact Hbrk].
Defined.

Lemma move_hands_storage_over_witness :
  2 ≤ index (data_ (objs apart_world !!! 1%N))
  ∧ ∃ w', Buffer_move_ctor 1%N apart_world = Ret (objs apart_world !!! 1%N) w'
          ∧ data (objs w' !!! 1%N) = nullptr
          ∧ size (objs w' !!! 1%N) = 2.
Proof.
  split; [by vm_compute|].
  destruct (move_hands_storage_over (T:=Z) (ok_runtime true false) 1%N apart_world)
    as (w' & Hret & _ & _ & _ & _ & Hsize & _ & _ & Hnull & _).
  exists w'. split; [exact Hret|]. split; [|exact Hsize].
  apply Hnull. by vm_compute.
Defined.

Lemma Buffer_copy_to_relocates_witness :
  DeviceMemory ≠ mem_type (objs apart_world !!! 1%N)
  ∧ ∃ b' w', Buffer_copy_to (ok_runtime true false) 1%N DeviceMemory 3 apart_world
             = Ret b' w'
             ∧ mem_type b' = DeviceMemory ∧ device b' = 3
             ∧ contents w' b' = contents apart_world (objs apart_world !!! 1%N).
Proof.
  split; [by vm_compute|].
  destruct (Buffer_copy_to_relocates (T:=Z) (ok_runtime true false) 1%N
              DeviceMemory 3 apart_world) as [Hpost Hruns]; [by vm_compute|].
  destruct Hruns as (b' & w' & Hret); [apply runtime_ok_all | by right |].
  exists b', w'. split; [done|].
  by destruct (Hpost b' w' Hret) as (? & ? & _ & _ & _ & _ & ? & _).
Defined.

Lemma Buffer_copy_to_owns_fresh_block_witness :
  ∃ b' w', Buffer_copy_to (ok_runtime true false) 1%N HostMemory 0 apart_world
           = Ret b' w'
           ∧ Buffer_dtor_releases b' = Some (HostMemory, 40)
           ∧ Buffer_dtor_releases (objs w' !!! 1%N) = Some (HostMemory, 30).
Proof.
  destruct (Buffer_copy_to (ok_runtime true false) 1%N HostMemory 0 apart_world)
    as [b' w' | e w'] eqn:Hret; [|by vm_compute in Hret].
  exists b', w'. split; [done|].
  destruct (Buffer_copy_to_owns_fresh_block (T:=Z) _ _ _ _ _ _ _ Hret)
    as (Hnew & Hold & _); [by vm_compute | right; by vm_compute |].
  split; [exact Hnew | exact Hold].
Defined.
